(** * weather_currency_bot: the fetch / normalise / persist core

    A shallow embedding of [bot.py] (the two fetchers [get_currency_rate]
    and [get_weather]) and of [database.py] (the record store), followed
    by the properties the specification states about them.

    Conventions of the embedding.
    - A Python value is a [pyval]; a [dict] is an association list read
      with first-match lookup, which represents every dict.
    - A Python exception is the [Raise] branch of the error monad [exc];
      [try ... except] is a [match] on it.
    - [requests.get] is an input of the fetchers: it either raises or
      yields a response with a status code and the outcome of
      [response.json()].
    - A [logger] call appends a [log_record] to the list returned next to
      the value.
    - A Python [float] / SQLite [REAL] is an exact rational ([Q]); a Python
      [str] is a [string] whose characters stand for code points. *)

From Stdlib Require Import ZArith QArith Qround String Ascii List Bool Lia.
Import ListNotations.
Local Open Scope string_scope.
Local Open Scope list_scope.
Local Open Scope Z_scope.

(** ** Python values and the operations the program applies to them *)

Module Py.

#[local] Set Warnings "-register-all".

Inductive pyval : Type :=
| PNone
| PBool (b : bool)
| PInt (n : Z)
| PFloat (x : Q)
| PStr (s : string)
| PList (l : list pyval)
| PDict (d : list (string * pyval)).

Inductive exn : Type :=
| Timeout
| ConnectionError
| JSONDecodeError
| KeyError
| IndexError
| TypeError
| AttributeError
| OtherException.

Inductive exc (A : Type) : Type :=
| Ok (a : A)
| Raise (e : exn).
Arguments Ok {A} a.
Arguments Raise {A} e.

Definition bind {A B : Type} (c : exc A) (k : A -> exc B) : exc B :=
  match c with
  | Ok a => k a
  | Raise e => Raise e
  end.

Declare Scope exc_scope.
Delimit Scope exc_scope with exc.
Notation "x <- c ;; k" := (bind c (fun x => k))
  (at level 61, c at next level, right associativity) : exc_scope.

Fixpoint dict_lookup {A : Type} (k : string) (d : list (string * A)) : option A :=
  match d with
  | [] => None
  | (k', v) :: d' => if String.eqb k k' then Some v else dict_lookup k d'
  end.

Definition is_str (k : string) (v : pyval) : bool :=
  match v with
  | PStr s => String.eqb s k
  | _ => false
  end.

Fixpoint is_substring (needle hay : string) : bool :=
  if String.prefix needle hay then true
  else match hay with
       | EmptyString => false
       | String _ hay' => is_substring needle hay'
       end.

(** [k in c] for a [str] key [k]. *)
Definition py_in (k : string) (c : pyval) : exc bool :=
  match c with
  | PDict d => Ok (match dict_lookup k d with Some _ => true | None => false end)
  | PList l => Ok (existsb (is_str k) l)
  | PStr s => Ok (is_substring k s)
  | _ => Raise TypeError
  end.

(** [c[k]] for a [str] key [k]. *)
Definition py_getitem (c : pyval) (k : string) : exc pyval :=
  match c with
  | PDict d => match dict_lookup k d with
               | Some v => Ok v
               | None => Raise KeyError
               end
  | _ => Raise TypeError
  end.

Definition py_len_index (len i : Z) : option nat :=
  let j := if i <? 0 then i + len else i in
  if (0 <=? j) && (j <? len) then Some (Z.to_nat j) else None.

(** [c[i]] for an [int] index [i]; the keys of a parsed JSON object are
    strings, so an integer is never a key of a dict. *)
Definition py_index (c : pyval) (i : Z) : exc pyval :=
  match c with
  | PList l => match py_len_index (Z.of_nat (List.length l)) i with
               | Some j => match nth_error l j with
                           | Some v => Ok v
                           | None => Raise IndexError
                           end
               | None => Raise IndexError
               end
  | PStr s => match py_len_index (Z.of_nat (String.length s)) i with
              | Some j => match String.get j s with
                          | Some ch => Ok (PStr (String ch EmptyString))
                          | None => Raise IndexError
                          end
              | None => Raise IndexError
              end
  | PDict _ => Raise KeyError
  | _ => Raise TypeError
  end.

(** [c.get(k, default)]; only a dict has the method. *)
Definition dict_get {A : Type} (k : string) (d : list (string * A)) (default : A) : A :=
  match dict_lookup k d with
  | Some v => v
  | None => default
  end.

Definition py_get (c : pyval) (k : string) (default : pyval) : exc pyval :=
  match c with
  | PDict d => Ok (dict_get k d default)
  | _ => Raise AttributeError
  end.

(** [c[:n]]. *)
Definition py_slice_to (c : pyval) (n : nat) : exc pyval :=
  match c with
  | PStr s => Ok (PStr (String.substring 0 n s))
  | PList l => Ok (PList (firstn n l))
  | _ => Raise TypeError
  end.

(** Truth value of an object, as tested by [if x] and [not x]. *)
Definition py_truthy (v : pyval) : bool :=
  match v with
  | PNone => false
  | PBool b => b
  | PInt n => negb (n =? 0)
  | PFloat x => negb (Qeq_bool x 0)
  | PStr s => negb (String.eqb s "")
  | PList l => match l with [] => false | _ => true end
  | PDict d => match d with [] => false | _ => true end
  end.

(** [round(x, 1)] on an exact value: to the nearest tenth, a tie going to
    the even neighbour. *)
Definition round_half_even (x : Q) : Z :=
  let f := Qfloor x in
  match Qcompare (Qminus x (inject_Z f)) (1 # 2) with
  | Lt => f
  | Gt => f + 1
  | Eq => if Z.even f then f else f + 1
  end.

Definition py_round1 (x : Q) : Q :=
  Qmake (round_half_even (Qmult x (inject_Z 10))) 10.

(** [sep.join(parts)] and [s.split(sep)] for a one-character separator. *)
Definition py_join (sep : ascii) (parts : list string) : string :=
  String.concat (String sep EmptyString) parts.

Fixpoint py_split (sep : ascii) (s : string) : list string :=
  match s with
  | EmptyString => [EmptyString]
  | String c s' =>
      if Ascii.eqb c sep then EmptyString :: py_split sep s'
      else match py_split sep s' with
           | h :: t => String c h :: t
           | [] => [String c EmptyString]
           end
  end.

(** ** Logging *)

Inductive level : Type := INFO | WARNING | ERROR.

Inductive log_msg : Type :=
(* bot.py, get_currency_rate *)
| CbrStatus (status : Z)
| CurrencyNotFound (currency_code : string)
| CbrTimeout
| CbrConnection
| CbrJson
| CbrUnknown (e : exn)
(* bot.py, get_weather *)
| CityNotFound (city : string)
| WeatherStatus (status : Z)
| WeatherIncomplete
| WeatherTimeout
| WeatherConnection
| WeatherUnknown (e : exn)
(* database.py *)
| DbConnect
| BadWeatherData
| WeatherSaved (user_id : Z) (city : string)
| WeatherSaveFailed
| BadCurrencyData
| CurrencySaved (user_id : Z) (currency_code : string)
| CurrencySaveFailed
| StatsFailed.

Definition log_record : Type := level * log_msg.

(** ** HTTP *)

Record response : Type := {
  status_code : Z;
  json : exc pyval
}.

End Py.

(** ** bot.py: the two fetchers *)

Module Bot.
Import Py.
Local Open Scope exc_scope.

(** A fetcher's outcome: the returned object and the records it logged. *)
Definition outcome : Type := pyval * list log_record.

(** [get_currency_rate(currency_code)], with the outcome of
    [requests.get(CBR_URL, timeout=10)] as [http]. *)
Definition get_currency_rate_try (currency_code : string) (http : exc response)
  : exc outcome :=
  response <- http ;;
  if negb (status_code response =? 200) then
    Ok (PNone, [(ERROR, CbrStatus (status_code response))])
  else
    data <- json response ;;
    has_table <- py_in "Valute" data ;;
    absent <- (if negb has_table then Ok true
               else table <- py_getitem data "Valute" ;;
                    has_code <- py_in currency_code table ;;
                    Ok (negb has_code)) ;;
    if (absent : bool) then
      Ok (PNone, [(WARNING, CurrencyNotFound currency_code)])
    else
      table <- py_getitem data "Valute" ;;
      currency_data <- py_getitem table currency_code ;;
      name <- py_getitem currency_data "Name" ;;
      value <- py_getitem currency_data "Value" ;;
      previous <- py_getitem currency_data "Previous" ;;
      stamp <- py_getitem data "Date" ;;
      date <- py_slice_to stamp 10 ;;
      Ok (PDict [("name", name); ("value", value);
                 ("previous", previous); ("date", date)], []).

Definition get_currency_rate_except (e : exn) : outcome :=
  match e with
  | Timeout => (PNone, [(ERROR, CbrTimeout)])
  | ConnectionError => (PNone, [(ERROR, CbrConnection)])
  | JSONDecodeError => (PNone, [(ERROR, CbrJson)])
  | _ => (PNone, [(ERROR, CbrUnknown e)])
  end.

Definition get_currency_rate (currency_code : string) (http : exc response)
  : outcome :=
  match get_currency_rate_try currency_code http with
  | Ok r => r
  | Raise e => get_currency_rate_except e
  end.

(** The literal ['неизвестно'] of the source. *)
Definition unknown_description : string := "неизвестно".

(** [get_weather(city)], with the outcome of
    [requests.get(WEATHER_URL, params=params, timeout=10)] as [http]. *)
Definition get_weather_try (city : string) (http : exc response) : exc outcome :=
  response <- http ;;
  if status_code response =? 404 then
    Ok (PNone, [(WARNING, CityNotFound city)])
  else if negb (status_code response =? 200) then
    Ok (PNone, [(ERROR, WeatherStatus (status_code response))])
  else
    data <- json response ;;
    has_main <- py_in "main" data ;;
    incomplete <- (if negb has_main then Ok true
                   else has_weather <- py_in "weather" data ;;
                        Ok (negb has_weather)) ;;
    if (incomplete : bool) then
      Ok (PNone, [(ERROR, WeatherIncomplete)])
    else
      v_city <- py_get data "name" (PStr city) ;;
      main1 <- py_getitem data "main" ;;
      v_temp <- py_get main1 "temp" PNone ;;
      main2 <- py_getitem data "main" ;;
      v_feels_like <- py_get main2 "feels_like" PNone ;;
      conditions <- py_getitem data "weather" ;;
      first <- py_index conditions 0 ;;
      v_description <- py_get first "description" (PStr unknown_description) ;;
      main3 <- py_getitem data "main" ;;
      v_humidity <- py_get main3 "humidity" (PInt 0) ;;
      wind <- py_get data "wind" (PDict []) ;;
      v_wind <- py_get wind "speed" (PInt 0) ;;
      main4 <- py_getitem data "main" ;;
      v_pressure <- py_get main4 "pressure" (PInt 0) ;;
      Ok (PDict [("city", v_city); ("temp", v_temp);
                 ("feels_like", v_feels_like);
                 ("description", v_description);
                 ("humidity", v_humidity); ("wind", v_wind);
                 ("pressure", v_pressure)], []).

Definition get_weather_except (e : exn) : outcome :=
  match e with
  | Timeout => (PNone, [(ERROR, WeatherTimeout)])
  | ConnectionError => (PNone, [(ERROR, WeatherConnection)])
  | _ => (PNone, [(ERROR, WeatherUnknown e)])
  end.

Definition get_weather (city : string) (http : exc response) : outcome :=
  match get_weather_try city http with
  | Ok r => r
  | Raise e => get_weather_except e
  end.

(** A response with status 200 whose body parses to [data]. *)
Definition ok_response (data : pyval) : exc response :=
  Ok {| status_code := 200; json := Ok data |}.

(** The snapshot [get_weather] builds from a document [doc] whose blocks
    have been unpacked. *)
Definition snapshot_of (city : string) (doc main first wind : list (string * pyval))
  : list (string * pyval) :=
  [("city", dict_get "name" doc (PStr city));
   ("temp", dict_get "temp" main PNone);
   ("feels_like", dict_get "feels_like" main PNone);
   ("description", dict_get "description" first (PStr unknown_description));
   ("humidity", dict_get "humidity" main (PInt 0));
   ("wind", dict_get "speed" wind (PInt 0));
   ("pressure", dict_get "pressure" main (PInt 0))].

End Bot.

(** ** database.py: the record store *)

Module Database.
Import Py.

(** A row of [weather_requests] / [currency_requests], with the columns the
    [INSERT] statements name.  The columns [id] and [request_time] are
    filled in by SQLite and no query of the program reads them. *)
Record weather_row : Type := {
  w_user_id : Z;
  w_username : option string;
  w_city : string;
  w_temperature : option Q;
  w_description : string
}.

Record currency_row : Type := {
  c_user_id : Z;
  c_username : option string;
  c_currency_code : string;
  c_rate : option Q
}.

(** The contents of the database file, rows in insertion order. *)
Record db : Type := {
  weather_requests : list weather_row;
  currency_requests : list currency_row
}.

Definition empty_db : db :=
  {| weather_requests := []; currency_requests := [] |}.

(** What SQLite does during one call: [sqlite3.connect] may raise, and a
    statement (or the commit) on an open connection may raise. *)
Inductive db_condition : Type :=
| Healthy
| CannotConnect
| StatementFails.

(** [get_connection()]: [true] stands for the connection object, [false]
    for [None]. *)
Definition get_connection (cond : db_condition) : bool * list log_record :=
  match cond with
  | CannotConnect => (false, [(ERROR, DbConnect)])
  | _ => (true, [])
  end.

Definition is_none {A : Type} (o : option A) : bool :=
  match o with
  | None => true
  | Some _ => false
  end.

(** [save_weather_request(user_id, username, city, temperature, description)]:
    the returned flag, the log, and the database afterwards. *)
Definition save_weather_request (cond : db_condition) (store : db)
    (user_id : Z) (username : option string) (city : string)
    (temperature : option Q) (description : string)
  : bool * list log_record * db :=
  if negb (py_truthy (PStr city)) || is_none temperature then
    (false, [(WARNING, BadWeatherData)], store)
  else
    let (conn, log) := get_connection cond in
    if negb conn then (false, log, store)
    else match cond with
         | Healthy =>
             (true, log ++ [(INFO, WeatherSaved user_id city)],
              {| weather_requests :=
                   weather_requests store ++
                   [{| w_user_id := user_id; w_username := username;
                       w_city := city; w_temperature := temperature;
                       w_description := description |}];
                 currency_requests := currency_requests store |})
         | _ => (false, log ++ [(ERROR, WeatherSaveFailed)], store)
         end.

(** [save_currency_request(user_id, username, currency_code, rate)]. *)
Definition save_currency_request (cond : db_condition) (store : db)
    (user_id : Z) (username : option string) (currency_code : string)
    (rate : option Q)
  : bool * list log_record * db :=
  if negb (py_truthy (PStr currency_code)) || is_none rate then
    (false, [(WARNING, BadCurrencyData)], store)
  else
    let (conn, log) := get_connection cond in
    if negb conn then (false, log, store)
    else match cond with
         | Healthy =>
             (true, log ++ [(INFO, CurrencySaved user_id currency_code)],
              {| weather_requests := weather_requests store;
                 currency_requests :=
                   currency_requests store ++
                   [{| c_user_id := user_id; c_username := username;
                       c_currency_code := currency_code;
                       c_rate := rate |}] |})
         | _ => (false, log ++ [(ERROR, CurrencySaveFailed)], store)
         end.

(** The SQL of [get_user_stats]. *)
Definition weather_of (user_id : Z) (store : db) : list weather_row :=
  filter (fun r => w_user_id r =? user_id) (weather_requests store).

Definition currency_of (user_id : Z) (store : db) : list currency_row :=
  filter (fun r => c_user_id r =? user_id) (currency_requests store).

(** The non-NULL values of a column. *)
Fixpoint non_null {A : Type} (l : list (option A)) : list A :=
  match l with
  | [] => []
  | Some a :: l' => a :: non_null l'
  | None :: l' => non_null l'
  end.

Definition q_sum (xs : list Q) : Q := fold_right Qplus 0%Q xs.

(** [AVG(x)]: NULL when no row has a non-NULL [x]. *)
Definition sql_avg (column : list (option Q)) : option Q :=
  match non_null column with
  | [] => None
  | xs => Some (Qdiv (q_sum xs) (inject_Z (Z.of_nat (length xs))))
  end.

(** The distinct values of a column, each at its first occurrence. *)
Fixpoint distinct_from (seen l : list string) : list string :=
  match l with
  | [] => []
  | x :: l' =>
      if existsb (String.eqb x) seen then distinct_from seen l'
      else x :: distinct_from (x :: seen) l'
  end.

Definition distinct (l : list string) : list string := distinct_from [] l.

Definition comma : ascii := ","%char.

(** [GROUP_CONCAT(DISTINCT x)]: NULL when there is no row. *)
Definition sql_group_concat_distinct (column : list string) : option string :=
  match column with
  | [] => None
  | _ => Some (py_join comma (distinct column))
  end.

(** The row fetched for [SELECT COUNT( * ), AVG(temperature) ...]. *)
Definition weather_stats (user_id : Z) (store : db) : option (Z * option Q) :=
  let rows := weather_of user_id store in
  Some (Z.of_nat (length rows), sql_avg (map w_temperature rows)).

(** The row fetched for
    [SELECT COUNT( * ), GROUP_CONCAT(DISTINCT currency_code) ...]. *)
Definition currency_stats (user_id : Z) (store : db)
  : option (Z * option string) :=
  let rows := currency_of user_id store in
  Some (Z.of_nat (length rows),
        sql_group_concat_distinct (map c_currency_code rows)).

Definition avg_temperature (ws : option (Z * option Q)) : pyval :=
  match ws with
  | Some (_, Some avg) =>
      if py_truthy (PFloat avg) then PFloat (py_round1 avg) else PNone
  | _ => PNone
  end.

Definition currencies_used (cs : option (Z * option string)) : pyval :=
  match cs with
  | Some (_, Some codes) =>
      if py_truthy (PStr codes) then PList (map PStr (py_split comma codes))
      else PList []
  | _ => PList []
  end.

Definition row_count {A : Type} (row : option (Z * A)) : pyval :=
  match row with
  | Some (n, _) => PInt n
  | None => PInt 0
  end.

(** [get_user_stats(user_id)]: the returned dict and the log. *)
Definition get_user_stats (cond : db_condition) (store : db) (user_id : Z)
  : pyval * list log_record :=
  let (conn, log) := get_connection cond in
  if negb conn then (PDict [], log)
  else match cond with
       | Healthy =>
           let ws := weather_stats user_id store in
           let cs := currency_stats user_id store in
           (PDict [("weather_requests", row_count ws);
                   ("avg_temperature", avg_temperature ws);
                   ("currency_requests", row_count cs);
                   ("currencies_used", currencies_used cs)], log)
       | _ => (PDict [], log ++ [(ERROR, StatsFailed)])
       end.

(** The states of the database file that the program can produce. *)
Inductive reachable : db -> Prop :=
| reach_init : reachable empty_db
| reach_weather cond store user_id username city temperature description :
    reachable store ->
    reachable (snd (save_weather_request cond store user_id username city
                      temperature description))
| reach_currency cond store user_id username currency_code rate :
    reachable store ->
    reachable (snd (save_currency_request cond store user_id username
                      currency_code rate)).

(** What the two validations keep true of every stored row. *)
Definition weather_row_ok (r : weather_row) : bool :=
  negb (String.eqb (w_city r) "") && negb (is_none (w_temperature r)).

Definition currency_row_ok (r : currency_row) : bool :=
  negb (String.eqb (c_currency_code r) "") && negb (is_none (c_rate r)).

Definition rows_validated (store : db) : bool :=
  forallb weather_row_ok (weather_requests store) &&
  forallb currency_row_ok (currency_requests store).

Fixpoint has_char (c : ascii) (s : string) : bool :=
  match s with
  | EmptyString => false
  | String c' s' => Ascii.eqb c' c || has_char c s'
  end.

Definition no_comma_codes (store : db) : bool :=
  forallb (fun r => negb (has_char comma (c_currency_code r)))
          (currency_requests store).

Fixpoint count_char (c : ascii) (s : string) : nat :=
  match s with
  | EmptyString => O
  | String c' s' => (if Ascii.eqb c' c then 1 else 0)%nat + count_char c s'
  end.

(** The caller's test in [send_stats]: [if not stats]. *)
Definition stats_unavailable (stats : pyval) : bool := negb (py_truthy stats).

(** [stats[k]] read as an optional field. *)
Definition stats_field (k : string) (stats : pyval) : option pyval :=
  match stats with
  | PDict d => dict_lookup k d
  | _ => None
  end.

(** The dict returned for a user without any record. *)
Definition zeroed_stats : pyval :=
  PDict [("weather_requests", PInt 0); ("avg_temperature", PNone);
         ("currency_requests", PInt 0); ("currencies_used", PList [])].

(** The codes of a user's currency rows, in insertion order. *)
Definition codes_of (user_id : Z) (store : db) : list string :=
  map c_currency_code (currency_of user_id store).

End Database.

(** ** The two ways a fetcher ends *)

Module Outcomes.
Import Py Bot.

(** [None] is returned and one record is logged. *)
Definition failed (o : outcome) : Prop :=
  fst o = PNone /\ exists r, snd o = [r].

(** A dict is returned and nothing is logged. *)
Definition succeeded (o : outcome) : Prop :=
  (exists d, fst o = PDict d) /\ snd o = [].

End Outcomes.

(** ** database.py: [init_db] *)

Module Storage.
Import Py Database.

(** The database file as [init_db] sees it: each table is absent or
    holds its rows. *)
Record db_file : Type := {
  weather_table : option (list weather_row);
  currency_table : option (list currency_row)
}.

Definition fresh_file : db_file :=
  {| weather_table := None; currency_table := None |}.

(** The statements of [init_db], in order. *)
Inductive init_step : Type :=
| CreateWeatherTable
| CreateCurrencyTable
| Commit.

(** What SQLite does during [init_db]: [sqlite3.connect] may raise, or one
    of the statements may raise [sqlite3.Error]. *)
Inductive init_condition : Type :=
| InitHealthy
| InitCannotConnect
| InitFailsAt (step : init_step).

Inductive init_msg : Type :=
| InitConnect
| InitDone
| InitFailed.

(** [CREATE TABLE IF NOT EXISTS]. *)
Definition create_table_if_not_exists {A : Type} (table : option (list A))
  : option (list A) :=
  match table with
  | Some rows => Some rows
  | None => Some []
  end.

(** [init_db()]: the returned flag, the log and the file afterwards.  The
    [sqlite3] module opens no transaction for a [CREATE TABLE], so each
    statement takes effect when it is executed. *)
Definition init_db (cond : init_condition) (file : db_file)
  : bool * list (level * init_msg) * db_file :=
  match cond with
  | InitCannotConnect => (false, [(ERROR, InitConnect)], file)
  | InitFailsAt CreateWeatherTable => (false, [(ERROR, InitFailed)], file)
  | InitFailsAt CreateCurrencyTable =>
      (false, [(ERROR, InitFailed)],
       {| weather_table := create_table_if_not_exists (weather_table file);
          currency_table := currency_table file |})
  | InitFailsAt Commit =>
      (false, [(ERROR, InitFailed)],
       {| weather_table := create_table_if_not_exists (weather_table file);
          currency_table := create_table_if_not_exists (currency_table file) |})
  | InitHealthy =>
      (true, [(INFO, InitDone)],
       {| weather_table := create_table_if_not_exists (weather_table file);
          currency_table := create_table_if_not_exists (currency_table file) |})
  end.

(** The rows of a file in which both tables exist. *)
Definition tables (file : db_file) : option db :=
  match weather_table file, currency_table file with
  | Some ws, Some cs =>
      Some {| weather_requests := ws; currency_requests := cs |}
  | _, _ => None
  end.

End Storage.

(** ** Sequences of calls to the record store *)

Module Session.
Import Py Database.

(** One call of a save function, with what SQLite does during it. *)
Inductive request : Type :=
| SaveWeather (cond : db_condition) (user_id : Z) (username : option string)
    (city : string) (temperature : option Q) (description : string)
| SaveCurrency (cond : db_condition) (user_id : Z) (username : option string)
    (currency_code : string) (rate : option Q).

(** The flag a call returns and the database after it. *)
Definition perform (r : request) (store : db) : bool * db :=
  match r with
  | SaveWeather cond user_id username city temperature description =>
      let '(saved, _, store') :=
        save_weather_request cond store user_id username city temperature
          description in
      (saved, store')
  | SaveCurrency cond user_id username currency_code rate =>
      let '(saved, _, store') :=
        save_currency_request cond store user_id username currency_code rate in
      (saved, store')
  end.

Fixpoint run (rs : list request) (store : db) : db :=
  match rs with
  | [] => store
  | r :: rs' => run rs' (snd (perform r store))
  end.

Definition is_weather_for (user_id : Z) (r : request) : bool :=
  match r with
  | SaveWeather _ u _ _ _ _ => u =? user_id
  | SaveCurrency _ _ _ _ _ => false
  end.

Definition is_currency_for (user_id : Z) (r : request) : bool :=
  match r with
  | SaveWeather _ _ _ _ _ _ => false
  | SaveCurrency _ u _ _ _ => u =? user_id
  end.

(** How many of the calls selected by [select] returned [True]. *)
Fixpoint saved_count (select : request -> bool) (rs : list request) (store : db)
  : nat :=
  match rs with
  | [] => O
  | r :: rs' =>
      ((if select r && fst (perform r store) then 1 else 0)
       + saved_count select rs' (snd (perform r store)))%nat
  end.

End Session.

(** ** bot.py: the [/stats] handler *)

Module Handlers.
Import Py Database.
Local Open Scope exc_scope.

(** The fields of a Telegram message the handler reads. *)
Record message : Type := {
  chat_id : Z;
  message_id : Z;
  text : string;
  from_user_id : Z;
  from_username : option string
}.

(** A formatted string: its literal parts and the values interpolated
    into it with [str]. *)
Inductive piece : Type :=
| Lit (s : string)
| Shown (v : pyval).

(** [bot.reply_to(message, text, parse_mode=...)]. *)
Inductive bot_call : Type :=
| ReplyTo (m : message) (body : list piece) (parse_mode : option string).

Definition unavailable_text : string := "Статистика недоступна.".

Definition stats_head : string := "
    📊 *Ваша статистика:*

    🌤 Запросов погоды: ".

Definition stats_middle : string := "
    💰 Запросов курсов: ".

Definition stats_tail : string := "
    ".

Definition average_label : string := "🌡 Средняя температура: ".

Definition average_unit : string := "°C
".

Definition currencies_label : string := "💱 Валюты: ".

(** [x is not None]. *)
Definition py_is_not_none (v : pyval) : bool :=
  match v with
  | PNone => false
  | _ => true
  end.

Fixpoint strings_of (l : list pyval) : option (list string) :=
  match l with
  | [] => Some []
  | PStr s :: l' => option_map (cons s) (strings_of l')
  | _ :: _ => None
  end.

Fixpoint characters (s : string) : list string :=
  match s with
  | EmptyString => []
  | String c s' => String c EmptyString :: characters s'
  end.

(** [sep.join(v)]: [v] has to be iterable and to yield strings. *)
Definition py_str_join (sep : string) (v : pyval) : exc string :=
  match v with
  | PList l => match strings_of l with
               | Some parts => Ok (String.concat sep parts)
               | None => Raise TypeError
               end
  | PStr s => Ok (String.concat sep (characters s))
  | PDict d => Ok (String.concat sep (distinct (map fst d)))
  | _ => Raise TypeError
  end.

(** [send_stats(message)]: the calls made on the bot (or the exception
    raised before any is made) and the log.  What [bot.reply_to] itself
    does, the handler's last step, is outside the model. *)
Definition send_stats (cond : db_condition) (store : db) (m : message)
  : exc (list bot_call) * list log_record :=
  let (stats, log) := get_user_stats cond store (from_user_id m) in
  (if negb (py_truthy stats) then
     Ok [ReplyTo m [Lit unavailable_text] None]
   else
     weather_count <- py_getitem stats "weather_requests" ;;
     currency_count <- py_getitem stats "currency_requests" ;;
     let body := [Lit stats_head; Shown weather_count;
                  Lit stats_middle; Shown currency_count; Lit stats_tail] in
     average <- py_getitem stats "avg_temperature" ;;
     body <- (if py_is_not_none average then
                shown <- py_getitem stats "avg_temperature" ;;
                Ok (body ++ [Lit average_label; Shown shown; Lit average_unit])
              else Ok body) ;;
     used <- py_getitem stats "currencies_used" ;;
     body <- (if py_truthy used then
                codes <- py_getitem stats "currencies_used" ;;
                joined <- py_str_join ", " codes ;;
                Ok (body ++ [Lit currencies_label; Shown (PStr joined)])
              else Ok body) ;;
     Ok [ReplyTo m body (Some "Markdown")],
   log).

End Handlers.

(** * Properties of the fetchers *)

Module BotSpec.
Import Py Bot.

Lemma dict_get_some {A : Type} (k : string) (d : list (string * A)) (v x : A) :
  dict_lookup k d = Some v -> dict_get k d x = v.
Proof. unfold dict_get. now intros ->. Qed.

Lemma dict_get_none {A : Type} (k : string) (d : list (string * A)) (x : A) :
  dict_lookup k d = None -> dict_get k d x = x.
Proof. unfold dict_get. now intros ->. Qed.

Lemma get_weather_except_none (e : exn) : fst (get_weather_except e) = PNone.
Proof. now destruct e. Qed.

Lemma get_currency_rate_except_none (e : exn) :
  fst (get_currency_rate_except e) = PNone.
Proof. now destruct e. Qed.

(** Success of [get_weather] on a document with the two blocks in shape. *)
Lemma get_weather_snapshot city doc main first rest wind :
  dict_lookup "main" doc = Some (PDict main) ->
  dict_lookup "weather" doc = Some (PList (PDict first :: rest)) ->
  dict_get "wind" doc (PDict []) = PDict wind ->
  get_weather city (ok_response (PDict doc)) =
    (PDict (snapshot_of city doc main first wind), []).
Proof.
  intros Hm Hw Hwind.
  unfold get_weather, get_weather_try, ok_response, snapshot_of.
  cbn [bind status_code json Z.eqb Pos.eqb negb py_in py_getitem py_get].
  rewrite Hm, Hw. cbn [negb bind py_get py_index]. rewrite Hwind.
  reflexivity.
Qed.

(** Conversely, a snapshot is returned only on such a document. *)
Lemma get_weather_snapshot_inv city http snap log :
  get_weather city http = (PDict snap, log) ->
  exists doc main first rest wind,
    http = ok_response (PDict doc) /\
    dict_lookup "main" doc = Some (PDict main) /\
    dict_lookup "weather" doc = Some (PList (PDict first :: rest)) /\
    dict_get "wind" doc (PDict []) = PDict wind /\
    snap = snapshot_of city doc main first wind /\ log = [].
Proof.
  unfold get_weather, get_weather_try.
  destruct http as [[status body] | e]; cbn [bind status_code json].
  2:{ intros H. pose proof (get_weather_except_none e) as E.
      rewrite H in E. discriminate E. }
  destruct (status =? 404) eqn:E404; [discriminate|].
  destruct (status =? 200) eqn:E200; cbn [negb]; [|discriminate].
  apply Z.eqb_eq in E200. subst status.
  destruct body as [data | e]; cbn [bind].
  2:{ intros H. pose proof (get_weather_except_none e) as E.
      rewrite H in E. discriminate E. }
  destruct data as [ | b | n | x | s | l | doc]; cbn [py_in bind];
    try discriminate.
  - destruct (is_substring "main" s); cbn [negb bind]; [|discriminate].
    destruct (is_substring "weather" s); cbn [negb bind py_get];
      discriminate.
  - destruct (existsb (is_str "main") l); cbn [negb bind]; [|discriminate].
    destruct (existsb (is_str "weather") l); cbn [negb bind py_get];
      discriminate.
  - destruct (dict_lookup "main" doc) as [m|] eqn:Hm; cbn [negb bind];
      [|discriminate].
    destruct (dict_lookup "weather" doc) as [w|] eqn:Hw; cbn [negb bind];
      [|discriminate].
    cbn [py_get py_getitem bind]. rewrite Hm, Hw. cbn [bind].
    destruct m as [ | | | | | | main]; cbn [py_get bind]; try discriminate.
    destruct w as [ | | | | ws | [|[ | | | | | | first] rest] | wd];
      cbn [py_index py_len_index bind]; try discriminate.
    + destruct (py_len_index (Z.of_nat (String.length ws)) 0) as [j|];
        [destruct (String.get j ws)|]; cbn [bind py_get]; discriminate.
    + cbn. destruct (dict_get "wind" doc (PDict [])) as [ | | | | | | wind] eqn:Hwind;
        cbn [py_get bind]; try discriminate.
      intros H. injection H as <- <-.
      exists doc, main, first, rest, wind. repeat split; assumption.
Qed.

(** ** Weather fetcher *)

(** X2. [get_weather] returns a snapshot exactly when the response has status
    200 and its document holds a temperature block that is an object and a
    conditions block that is a list headed by an object (the wind block,
    when present, being an object too); every other missing field takes
    its default, which for [temp] and [feels_like] is [None]. *)
Lemma get_weather_snapshot_iff city http snap log :
  get_weather city http = (PDict snap, log) <->
  exists doc main first rest wind,
    http = ok_response (PDict doc) /\
    dict_lookup "main" doc = Some (PDict main) /\
    dict_lookup "weather" doc = Some (PList (PDict first :: rest)) /\
    dict_get "wind" doc (PDict []) = PDict wind /\
    snap = snapshot_of city doc main first wind /\ log = [].
Proof.
  split.
  - apply get_weather_snapshot_inv.
  - intros (doc & main & first & rest & wind & -> & Hm & Hw & Hwind & -> & ->).
    now apply get_weather_snapshot with (rest := rest).
Qed.

(** A snapshot comes only from a document with both blocks. *)
Lemma get_weather_snapshot_has_blocks city http snap log :
  get_weather city http = (PDict snap, log) ->
  exists data,
    http = ok_response data /\
    py_in "main" data = Ok true /\ py_in "weather" data = Ok true.
Proof.
  intros H. apply get_weather_snapshot_inv in H.
  destruct H as (doc & main & first & rest & wind & -> & Hm & Hw & _).
  exists (PDict doc). cbn. rewrite Hm, Hw. auto.
Qed.

(** C2 (the code at the failing input): on a document whose temperature
    block is empty the fetch returns a snapshot, and its [temp] and
    [feels_like] are [None]. *)
Theorem C2_snapshot_with_null_temperature :
  exists snap,
    get_weather "Oslo"
      (ok_response (PDict [("main", PDict []); ("weather", PList [PDict []])]))
      = (PDict snap, []) /\
    dict_lookup "temp" snap = Some PNone /\
    dict_lookup "feels_like" snap = Some PNone.
Proof.
  eexists. split; [reflexivity|]. split; reflexivity.
Qed.

(** C4 (amended): on status 404 [get_weather] returns [None] and logs the
    city-not-found warning; on any other status but 200 it returns [None]
    and logs the provider's status as an error.  The returned values are
    the same; only the log records differ. *)
Theorem C4_not_found_and_status_error_return_none :
  forall city status body,
    status <> 200 ->
    let out := get_weather city (Ok {| status_code := status; json := body |}) in
    fst out = PNone /\
    (status = 404 -> snd out = [(WARNING, CityNotFound city)]) /\
    (status <> 404 -> snd out = [(ERROR, WeatherStatus status)]).
Proof.
  intros city status body H200.
  unfold get_weather, get_weather_try. cbn [bind status_code json].
  destruct (status =? 404) eqn:E404.
  - apply Z.eqb_eq in E404. cbn.
    split; [reflexivity | split; [reflexivity | congruence]].
  - apply Z.eqb_neq in E404. apply Z.eqb_neq in H200. rewrite H200. cbn.
    split; [reflexivity | split; [congruence | reflexivity]].
Qed.

Lemma C4_not_found_and_status_error_return_none_witness :
  503 <> 200 /\
  fst (get_weather "Oslo" (Ok {| status_code := 503; json := Raise JSONDecodeError |}))
    = PNone.
Proof.
  split; [lia|].
  apply (C4_not_found_and_status_error_return_none "Oslo" 503 (Raise JSONDecodeError)).
  lia.
Defined.

(** C4 (as stated) fails: the value returned for a 404 is the value
    returned for a 500, so the caller cannot tell the two apart. *)
Lemma C4_same_value_for_404_and_500 :
  fst (get_weather "Atlantis" (Ok {| status_code := 404; json := Raise JSONDecodeError |}))
  = fst (get_weather "Atlantis" (Ok {| status_code := 500; json := Raise JSONDecodeError |})).
Proof. reflexivity. Qed.

(** C6: on a successful fetch every optional field the provider omits
    has its default: city the queried string, description the sentinel,
    humidity, wind and pressure 0; and a document that lacks only
    [humidity] gives a snapshot with humidity 0. *)
Theorem C6_defaults_of_omitted_fields :
  (forall city doc snap log,
     get_weather city (ok_response (PDict doc)) = (PDict snap, log) ->
     (dict_lookup "name" doc = None ->
        dict_lookup "city" snap = Some (PStr city)) /\
     (forall first rest,
        dict_lookup "weather" doc = Some (PList (PDict first :: rest)) ->
        dict_lookup "description" first = None ->
        dict_lookup "description" snap = Some (PStr unknown_description)) /\
     (forall main,
        dict_lookup "main" doc = Some (PDict main) ->
        (dict_lookup "humidity" main = None ->
           dict_lookup "humidity" snap = Some (PInt 0)) /\
        (dict_lookup "pressure" main = None ->
           dict_lookup "pressure" snap = Some (PInt 0))) /\
     (dict_lookup "wind" doc = None ->
        dict_lookup "wind" snap = Some (PInt 0)) /\
     (forall wind,
        dict_lookup "wind" doc = Some (PDict wind) ->
        dict_lookup "speed" wind = None ->
        dict_lookup "wind" snap = Some (PInt 0))) /\
  (forall city doc main first rest wind,
     dict_lookup "main" doc = Some (PDict main) ->
     dict_lookup "weather" doc = Some (PList (PDict first :: rest)) ->
     dict_lookup "wind" doc = Some (PDict wind) ->
     dict_lookup "humidity" main = None ->
     exists snap,
       get_weather city (ok_response (PDict doc)) = (PDict snap, []) /\
       dict_lookup "humidity" snap = Some (PInt 0)).
Proof.
  split.
  - intros city doc snap log H.
    apply get_weather_snapshot_inv in H.
    destruct H as (doc' & main & first & rest & wind & E & Hm & Hw & Hwind & -> & _).
    injection E as <-.
    unfold snapshot_of. cbn [dict_lookup String.eqb Ascii.eqb Bool.eqb].
    repeat split.
    + intros Hn. now rewrite (dict_get_none _ _ _ Hn).
    + intros first' rest' Hw' Hd. rewrite Hw in Hw'. injection Hw' as -> ->.
      now rewrite (dict_get_none _ _ _ Hd).
    + intros Hh. rewrite Hm in H. injection H as ->.
      now rewrite (dict_get_none _ _ _ Hh).
    + intros Hp. rewrite Hm in H. injection H as ->.
      now rewrite (dict_get_none _ _ _ Hp).
    + intros Hn. rewrite (dict_get_none _ _ _ Hn) in Hwind.
      injection Hwind as <-. reflexivity.
    + intros wind' Hw' Hs. rewrite (dict_get_some _ _ _ _ Hw') in Hwind.
      injection Hwind as ->. now rewrite (dict_get_none _ _ _ Hs).
  - intros city doc main first rest wind Hm Hw Hwind Hh.
    exists (snapshot_of city doc main first wind). split.
    + apply get_weather_snapshot with (rest := rest); try assumption.
      now apply dict_get_some.
    + unfold snapshot_of. cbn. now rewrite (dict_get_none _ _ _ Hh).
Qed.

Lemma C6_defaults_of_omitted_fields_witness :
  exists snap,
    get_weather "Kazan"
      (ok_response
         (PDict [("name", PStr "Kazan");
                 ("main", PDict [("temp", PFloat (-3 # 1));
                                 ("feels_like", PFloat (-7 # 1));
                                 ("pressure", PInt 1021)]);
                 ("weather", PList [PDict [("description", PStr "snow")]]);
                 ("wind", PDict [("speed", PFloat (5 # 2))])]))
      = (PDict snap, []) /\
    dict_lookup "humidity" snap = Some (PInt 0).
Proof.
  apply (proj2 C6_defaults_of_omitted_fields) with
    (main := [("temp", PFloat (-3 # 1)); ("feels_like", PFloat (-7 # 1));
              ("pressure", PInt 1021)])
    (first := [("description", PStr "snow")]) (rest := [])
    (wind := [("speed", PFloat (5 # 2))]); reflexivity.
Defined.

(** C10: a document whose conditions block is the empty list never gives
    a snapshot; when the temperature block is present the failure is the
    one of the catch-all handler, and when that block is an object the
    exception caught is the [IndexError] of [data['weather'][0]]. *)
Theorem C10_empty_conditions_list_fails :
  forall city status doc,
    dict_lookup "weather" doc = Some (PList []) ->
    let out := get_weather city
                 (Ok {| status_code := status; json := Ok (PDict doc) |}) in
    fst out = PNone /\
    (status = 200 -> dict_lookup "main" doc <> None ->
       exists e, snd out = [(ERROR, WeatherUnknown e)]) /\
    (status = 200 -> forall main, dict_lookup "main" doc = Some (PDict main) ->
       snd out = [(ERROR, WeatherUnknown IndexError)]).
Proof.
  intros city status doc Hw.
  unfold get_weather, get_weather_try. cbn [bind status_code json].
  destruct (status =? 404) eqn:E404.
  { apply Z.eqb_eq in E404. cbn. repeat split; intros; lia. }
  destruct (status =? 200) eqn:E200; cbn [negb].
  2:{ apply Z.eqb_neq in E200. cbn. repeat split; intros; lia. }
  cbn [py_in bind py_getitem py_get]. rewrite Hw.
  destruct (dict_lookup "main" doc) as [m|] eqn:Hm; cbn [negb bind].
  2:{ cbn. repeat split; intros; congruence. }
  destruct m as [ | | | | | | main]; cbn;
    (split; [reflexivity | split; intros; [eexists; reflexivity | congruence]]).
Qed.

Lemma C10_empty_conditions_list_fails_witness :
  get_weather "Oslo"
    (ok_response (PDict [("main", PDict [("temp", PFloat (4 # 1));
                                         ("feels_like", PFloat (1 # 1))]);
                         ("weather", PList [])]))
  = (PNone, [(ERROR, WeatherUnknown IndexError)]).
Proof.
  pose proof (C10_empty_conditions_list_fails "Oslo" 200
                [("main", PDict [("temp", PFloat (4 # 1));
                                 ("feels_like", PFloat (1 # 1))]);
                 ("weather", PList [])] eq_refl) as (H1 & _ & H3).
  specialize (H3 eq_refl _ eq_refl).
  unfold ok_response.
  destruct (get_weather "Oslo" _) as [v l]. cbn in H1, H3. now subst.
Defined.

(** ** Currency fetcher *)

(** C5: for a code listed in the currency table of the provider's
    document, [get_currency_rate] returns a quote with the entry's name,
    value and previous value and the first ten characters of the
    document's date string. *)
Theorem C5_quote_of_listed_code :
  forall currency_code doc table entry name value previous stamp,
    dict_lookup "Valute" doc = Some (PDict table) ->
    dict_lookup currency_code table = Some (PDict entry) ->
    dict_lookup "Name" entry = Some name ->
    dict_lookup "Value" entry = Some value ->
    dict_lookup "Previous" entry = Some previous ->
    dict_lookup "Date" doc = Some (PStr stamp) ->
    get_currency_rate currency_code (ok_response (PDict doc)) =
      (PDict [("name", name); ("value", value); ("previous", previous);
              ("date", PStr (String.substring 0 10 stamp))], []).
Proof.
  intros code doc table entry name value previous stamp Ht Hc Hn Hv Hp Hd.
  unfold get_currency_rate, get_currency_rate_try, ok_response.
  cbn [bind status_code json Z.eqb Pos.eqb negb py_in py_getitem].
  rewrite Ht. cbn [bind py_in py_getitem negb]. rewrite Hc.
  cbn [bind py_in py_getitem negb]. rewrite Hn, Hv, Hp, Hd. reflexivity.
Qed.

Lemma C5_quote_of_listed_code_witness :
  get_currency_rate "USD"
    (ok_response
       (PDict [("Date", PStr "2024-03-02T11:30:00+03:00");
               ("Valute",
                PDict [("USD", PDict [("Name", PStr "US Dollar");
                                      ("Value", PFloat (9137 # 100));
                                      ("Previous", PFloat (9084 # 100))])])]))
  = (PDict [("name", PStr "US Dollar"); ("value", PFloat (9137 # 100));
            ("previous", PFloat (9084 # 100)); ("date", PStr "2024-03-02")], []).
Proof.
  apply (C5_quote_of_listed_code "USD" _
           [("USD", PDict [("Name", PStr "US Dollar");
                           ("Value", PFloat (9137 # 100));
                           ("Previous", PFloat (9084 # 100))])]
           [("Name", PStr "US Dollar"); ("Value", PFloat (9137 # 100));
            ("Previous", PFloat (9084 # 100))]
           (PStr "US Dollar") (PFloat (9137 # 100)) (PFloat (9084 # 100))
           "2024-03-02T11:30:00+03:00");
    reflexivity.
Defined.

(** C7: when the document has no currency table, or the table has no
    entry for the requested code, [get_currency_rate] returns [None],
    never a quote, and logs the currency-not-found warning. *)
Theorem C7_absent_code_is_not_found :
  forall currency_code doc,
    (dict_lookup "Valute" doc = None \/
     exists table, dict_lookup "Valute" doc = Some (PDict table) /\
                   dict_lookup currency_code table = None) ->
    get_currency_rate currency_code (ok_response (PDict doc)) =
      (PNone, [(WARNING, CurrencyNotFound currency_code)]) /\
    forall quote,
      fst (get_currency_rate currency_code (ok_response (PDict doc)))
        <> PDict quote.
Proof.
  intros code doc H.
  assert (E : get_currency_rate code (ok_response (PDict doc)) =
              (PNone, [(WARNING, CurrencyNotFound code)])).
  { unfold get_currency_rate, get_currency_rate_try, ok_response.
    cbn [bind status_code json Z.eqb Pos.eqb negb py_in py_getitem].
    destruct H as [Hn | (table & Ht & Hc)].
    - rewrite Hn. reflexivity.
    - rewrite Ht. cbn [bind py_in negb]. rewrite Hc. reflexivity. }
  split; [exact E|]. intros quote. rewrite E. discriminate.
Qed.

Lemma C7_absent_code_is_not_found_witness :
  get_currency_rate "XYZ"
    (ok_response
       (PDict [("Date", PStr "2024-03-02T11:30:00+03:00");
               ("Valute",
                PDict [("USD", PDict [("Name", PStr "US Dollar");
                                      ("Value", PFloat (9137 # 100));
                                      ("Previous", PFloat (9084 # 100))])])]))
  = (PNone, [(WARNING, CurrencyNotFound "XYZ")]).
Proof.
  apply C7_absent_code_is_not_found. right.
  eexists. split; reflexivity.
Defined.

End BotSpec.

(** * Properties of the record store *)

Module DatabaseSpec.
Import Py Database.

(** ** Validation *)

(** C8: a weather record with an empty city or a null temperature, and a
    currency record with an empty code or a null rate, is refused: the
    call returns [False], the database is left as it was, and so is every
    user's record count. *)
Theorem C8_invalid_record_is_not_written :
  forall cond store user_id username city temperature description
         currency_code rate,
    (city = "" \/ temperature = None ->
     let '(saved, _, store') :=
       save_weather_request cond store user_id username city temperature
         description in
     saved = false /\ store' = store /\
     forall u, length (weather_of u store') = length (weather_of u store)) /\
    (currency_code = "" \/ rate = None ->
     let '(saved, _, store') :=
       save_currency_request cond store user_id username currency_code rate in
     saved = false /\ store' = store /\
     forall u, length (currency_of u store') = length (currency_of u store)).
Proof.
  intros cond store user_id username city temperature description
    currency_code rate.
  split; intros [-> | ->].
  - cbn. auto.
  - unfold save_weather_request. rewrite orb_true_r. auto.
  - cbn. auto.
  - unfold save_currency_request. rewrite orb_true_r. auto.
Qed.

Lemma C8_invalid_record_is_not_written_witness :
  let '(saved, _, store') :=
    save_weather_request Healthy empty_db 42 (Some "ann") "" (Some (7 # 2))
      "rain" in
  saved = false /\ store' = empty_db /\
  forall u, length (weather_of u store') = length (weather_of u empty_db).
Proof.
  apply (proj1 (C8_invalid_record_is_not_written Healthy empty_db 42
                  (Some "ann") "" (Some (7 # 2)) "rain" "" None)).
  left. reflexivity.
Defined.

(** ** Statistics *)

Lemma weather_of_app user_id ws cs r :
  weather_of user_id
    {| weather_requests := ws ++ [r]; currency_requests := cs |} =
  weather_of user_id {| weather_requests := ws; currency_requests := cs |} ++
  (if w_user_id r =? user_id then [r] else []).
Proof. unfold weather_of. cbn. now rewrite filter_app. Qed.

(** A valid record saved on a healthy store raises its user's weather
    count by one and nobody else's. *)
Lemma save_weather_request_count store user_id username city t description :
  city <> "" ->
  let '(saved, _, store') :=
    save_weather_request Healthy store user_id username city (Some t)
      description in
  saved = true /\
  stats_field "weather_requests" (fst (get_user_stats Healthy store' user_id)) =
    Some (PInt (Z.of_nat (length (weather_of user_id store)) + 1)) /\
  forall u, u <> user_id ->
    length (weather_of u store') = length (weather_of u store).
Proof.
  intros Hcity. unfold save_weather_request.
  assert (E : py_truthy (PStr city) = true).
  { cbn. destruct (String.eqb_spec city ""); [contradiction | reflexivity]. }
  rewrite E. cbn [negb orb is_none get_connection].
  destruct store as [ws cs]. cbn [weather_requests currency_requests].
  split; [reflexivity|]. split.
  - cbn [get_user_stats get_connection negb fst stats_field dict_lookup
         String.eqb Ascii.eqb Bool.eqb weather_stats row_count].
    rewrite weather_of_app. cbn [w_user_id]. rewrite Z.eqb_refl.
    rewrite length_app. cbn [length]. do 2 f_equal. lia.
  - intros u Hu. rewrite weather_of_app. cbn [w_user_id].
    apply Z.eqb_neq in Hu. rewrite Z.eqb_sym in Hu. rewrite Hu.
    now rewrite app_nil_r.
Qed.

(** The mean of 10.0 and 20.0 is reported as 15.0. *)
Example stats_mean_of_10_and_20 :
  let '(_, _, s1) :=
    save_weather_request Healthy empty_db 1 None "Oslo" (Some (10 # 1)) "rain" in
  let '(_, _, s2) :=
    save_weather_request Healthy s1 1 None "Oslo" (Some (20 # 1)) "sun" in
  stats_field "weather_requests" (fst (get_user_stats Healthy s2 1)) =
    Some (PInt 2) /\
  stats_field "avg_temperature" (fst (get_user_stats Healthy s2 1)) =
    Some (PFloat (150 # 10)).
Proof. split; reflexivity. Qed.

(** C1 (the code at the failing input): after a valid record with
    temperature 0.0 is saved for a user without records, the user has one
    weather record and [avg_temperature] is [None], not 0.0. *)
Theorem C1_zero_mean_is_reported_as_none :
  let '(saved, _, store) :=
    save_weather_request Healthy empty_db 1 None "Oslo" (Some (0 # 1))
      "clear" in
  saved = true /\
  length (weather_of 1 store) = 1%nat /\
  fst (get_user_stats Healthy store 1) =
    PDict [("weather_requests", PInt 1); ("avg_temperature", PNone);
           ("currency_requests", PInt 0); ("currencies_used", PList [])].
Proof. repeat split; reflexivity. Qed.

(** The same happens whenever the stored temperatures cancel out. *)
Example stats_mean_of_minus5_and_5 :
  let '(_, _, s1) :=
    save_weather_request Healthy empty_db 1 None "Oslo" (Some (-5 # 1)) "snow" in
  let '(_, _, s2) :=
    save_weather_request Healthy s1 1 None "Oslo" (Some (5 # 1)) "sun" in
  stats_field "weather_requests" (fst (get_user_stats Healthy s2 1)) =
    Some (PInt 2) /\
  stats_field "avg_temperature" (fst (get_user_stats Healthy s2 1)) =
    Some PNone.
Proof. split; reflexivity. Qed.

(** C3 (amended): when the store cannot be reached [get_user_stats]
    returns the empty dict, and for a user without records it returns the
    zeroed dict; the caller's test [if not stats] holds of the first and
    not of the second. *)
Theorem C3_unreachable_is_empty_dict_no_records_is_zeroed :
  forall store user_id,
    fst (get_user_stats CannotConnect store user_id) = PDict [] /\
    (weather_of user_id store = [] -> currency_of user_id store = [] ->
     fst (get_user_stats Healthy store user_id) = zeroed_stats) /\
    stats_unavailable (PDict []) = true /\
    stats_unavailable zeroed_stats = false.
Proof.
  intros store user_id. split; [reflexivity|]. split; [|split; reflexivity].
  intros Hw Hc.
  cbn [get_user_stats get_connection negb fst].
  unfold weather_stats, currency_stats. rewrite Hw, Hc. reflexivity.
Qed.

Lemma C3_unreachable_is_empty_dict_no_records_is_zeroed_witness :
  fst (get_user_stats Healthy empty_db 7) = zeroed_stats.
Proof.
  apply (C3_unreachable_is_empty_dict_no_records_is_zeroed empty_db 7);
    reflexivity.
Defined.

(** C3 (as stated) fails: for a user without records the value returned
    by an unreachable store differs from the one returned by a healthy
    store. *)
Lemma C3_unreachable_differs_from_no_records :
  fst (get_user_stats CannotConnect empty_db 7) <>
  fst (get_user_stats Healthy empty_db 7).
Proof. cbn. discriminate. Qed.

(** [avg_temperature] in terms of the user's stored temperatures: the
    rounded mean, unless there is none or the mean is zero. *)
Lemma get_user_stats_avg_temperature store user_id :
  stats_field "avg_temperature" (fst (get_user_stats Healthy store user_id)) =
  Some match non_null (map w_temperature (weather_of user_id store)) with
       | [] => PNone
       | xs =>
           let mean := Qdiv (q_sum xs) (inject_Z (Z.of_nat (length xs))) in
           if Qeq_bool mean 0 then PNone else PFloat (py_round1 mean)
       end.
Proof.
  cbn [get_user_stats get_connection negb fst stats_field dict_lookup
       String.eqb Ascii.eqb Bool.eqb].
  unfold weather_stats, avg_temperature, sql_avg.
  destruct (non_null (map w_temperature (weather_of user_id store)));
    [reflexivity|].
  cbn [py_truthy]. now destruct (Qeq_bool _ 0).
Qed.

(** ** [split] after [join] *)

Section SplitJoin.

Variable sep : ascii.

Lemma py_split_not_nil (s : string) : py_split sep s <> [].
Proof.
  destruct s as [|c s]; cbn; [discriminate|].
  destruct (Ascii.eqb c sep); [discriminate|].
  destruct (py_split sep s); discriminate.
Qed.

Lemma py_split_without_sep (a : string) :
  has_char sep a = false -> py_split sep a = [a].
Proof.
  induction a as [|c a IH]; cbn; [reflexivity|].
  intros H. apply orb_false_elim in H as [Hc Ha].
  rewrite Hc, (IH Ha). reflexivity.
Qed.

Lemma py_split_app_sep (a rest : string) :
  has_char sep a = false ->
  py_split sep (a ++ String sep rest) = a :: py_split sep rest.
Proof.
  induction a as [|c a IH]; cbn.
  - intros _. now rewrite Ascii.eqb_refl.
  - intros H. apply orb_false_elim in H as [Hc Ha].
    rewrite Hc, (IH Ha). reflexivity.
Qed.

Lemma py_split_join (parts : list string) :
  parts <> [] ->
  Forall (fun p => has_char sep p = false) parts ->
  py_split sep (py_join sep parts) = parts.
Proof.
  unfold py_join.
  induction parts as [|p [|q parts] IH]; intros Hne Hall.
  - contradiction.
  - inversion Hall; subst. now apply py_split_without_sep.
  - inversion Hall as [|? ? Hp Hrest]; subst.
    change (String.concat (String sep "") (p :: q :: parts))
      with (p ++ String sep (String.concat (String sep "") (q :: parts)))%string.
    rewrite py_split_app_sep by assumption.
    f_equal. apply IH; [discriminate | assumption].
Qed.

Lemma py_split_fragments (s : string) :
  Forall (fun f => has_char sep f = false) (py_split sep s).
Proof.
  induction s as [|c s IH]; cbn.
  - constructor; [reflexivity | constructor].
  - destruct (Ascii.eqb c sep) eqn:Hc.
    + constructor; [reflexivity | assumption].
    + destruct (py_split sep s) as [|h t].
      * constructor; [cbn; now rewrite Hc | constructor].
      * inversion IH; subst. constructor; [cbn; now rewrite Hc | assumption].
Qed.

Lemma py_split_length (s : string) :
  length (py_split sep s) = S (count_char sep s).
Proof.
  induction s as [|c s IH]; cbn; [reflexivity|].
  destruct (Ascii.eqb c sep); cbn.
  - now rewrite IH.
  - destruct (py_split sep s) as [|h t]; cbn in *; [discriminate | assumption].
Qed.

Lemma count_char_app (a b : string) :
  count_char sep (a ++ b) = (count_char sep a + count_char sep b)%nat.
Proof. induction a as [|c a IH]; cbn; [reflexivity | rewrite IH; lia]. Qed.

Lemma has_char_count (a : string) :
  has_char sep a = true -> (0 < count_char sep a)%nat.
Proof.
  induction a as [|c a IH]; cbn; [discriminate|].
  destruct (Ascii.eqb c sep); cbn; [lia | exact IH].
Qed.

Lemma count_char_join (parts : list string) :
  forall p, In p parts ->
  (length parts + count_char sep p <= S (count_char sep (py_join sep parts)))%nat.
Proof.
  unfold py_join.
  induction parts as [|q [|r parts] IH]; intros p Hin.
  - contradiction.
  - destruct Hin as [-> | []]. cbn. lia.
  - change (String.concat (String sep "") (q :: r :: parts))
      with (q ++ String sep (String.concat (String sep "") (r :: parts)))%string.
    rewrite count_char_app. cbn [count_char]. rewrite Ascii.eqb_refl.
    destruct Hin as [-> | Hin].
    + assert (H := IH r (or_introl eq_refl)). cbn [length] in *. lia.
    + specialize (IH p Hin). cbn [length] in *. lia.
Qed.

End SplitJoin.

(** ** The invariant of the store *)

Lemma save_weather_request_validated cond store user_id username city
    temperature description :
  rows_validated store = true ->
  rows_validated (snd (save_weather_request cond store user_id username city
                         temperature description)) = true.
Proof.
  intros H. unfold save_weather_request.
  destruct (negb (py_truthy (PStr city)) || is_none temperature) eqn:E;
    [exact H|].
  destruct cond; cbn; try exact H.
  apply orb_false_elim in E as [Ec Et].
  unfold rows_validated in *. cbn [weather_requests currency_requests].
  apply andb_true_iff in H as [Hw Hc].
  rewrite forallb_app, Hw, Hc. cbn.
  unfold weather_row_ok. cbn [w_city w_temperature].
  cbn in Ec. apply negb_false_iff in Ec. rewrite Ec, Et. reflexivity.
Qed.

Lemma save_currency_request_validated cond store user_id username
    currency_code rate :
  rows_validated store = true ->
  rows_validated (snd (save_currency_request cond store user_id username
                         currency_code rate)) = true.
Proof.
  intros H. unfold save_currency_request.
  destruct (negb (py_truthy (PStr currency_code)) || is_none rate) eqn:E;
    [exact H|].
  destruct cond; cbn; try exact H.
  apply orb_false_elim in E as [Ec Et].
  unfold rows_validated in *. cbn [weather_requests currency_requests].
  apply andb_true_iff in H as [Hw Hc].
  rewrite forallb_app, Hw, Hc. cbn.
  unfold currency_row_ok. cbn [c_currency_code c_rate].
  cbn in Ec. apply negb_false_iff in Ec. rewrite Ec, Et. reflexivity.
Qed.

(** Every row the program has stored passed its validation. *)
Lemma reachable_rows_validated store :
  reachable store -> rows_validated store = true.
Proof.
  induction 1 as [| ? ? ? ? ? ? ? _ IH | ? ? ? ? ? ? _ IH].
  - reflexivity.
  - now apply save_weather_request_validated.
  - now apply save_currency_request_validated.
Qed.

Lemma codes_of_nonempty store user_id c :
  rows_validated store = true ->
  In c (codes_of user_id store) -> c <> "".
Proof.
  intros H Hin. unfold codes_of, currency_of in Hin.
  apply in_map_iff in Hin as (r & <- & Hr).
  apply filter_In in Hr as [Hr _].
  apply andb_true_iff in H as [_ Hc].
  rewrite forallb_forall in Hc. specialize (Hc r Hr).
  apply andb_true_iff in Hc as [Hc _]. apply negb_true_iff in Hc.
  now apply String.eqb_neq in Hc.
Qed.

Lemma codes_of_no_comma store user_id c :
  no_comma_codes store = true ->
  In c (codes_of user_id store) -> has_char comma c = false.
Proof.
  intros H Hin. unfold codes_of, currency_of in Hin.
  apply in_map_iff in Hin as (r & <- & Hr).
  apply filter_In in Hr as [Hr _].
  unfold no_comma_codes in H. rewrite forallb_forall in H.
  specialize (H r Hr). now apply negb_true_iff in H.
Qed.

(** ** Distinct values *)

Lemma seen_iff (x : string) (seen : list string) :
  existsb (String.eqb x) seen = true <-> In x seen.
Proof.
  rewrite existsb_exists. split.
  - intros (y & Hy & E). apply String.eqb_eq in E. now subst.
  - intros H. exists x. split; [assumption | apply String.eqb_refl].
Qed.

Lemma distinct_from_in (l seen : list string) (c : string) :
  In c (distinct_from seen l) <-> In c l /\ ~ In c seen.
Proof.
  revert seen. induction l as [|x l IH]; intros seen; cbn.
  - tauto.
  - destruct (existsb (String.eqb x) seen) eqn:E.
    + apply seen_iff in E. rewrite IH. split.
      * tauto.
      * intros [[-> | H] Hn]; [contradiction | tauto].
    + assert (Hx : ~ In x seen).
      { intros Hx. apply seen_iff in Hx. congruence. }
      cbn. rewrite IH. cbn. split.
      * intros [-> | [H Hn]]; [tauto|]. split; [tauto|]. tauto.
      * intros [[-> | H] Hn]; [tauto|].
        destruct (String.eqb_spec x c) as [-> | Hne]; [tauto|]. right. tauto.
Qed.

Lemma distinct_from_nodup (l seen : list string) :
  NoDup (distinct_from seen l).
Proof.
  revert seen. induction l as [|x l IH]; intros seen; cbn.
  - constructor.
  - destruct (existsb (String.eqb x) seen); [apply IH|].
    constructor; [|apply IH].
    rewrite distinct_from_in. cbn. tauto.
Qed.

Lemma distinct_in (l : list string) (c : string) :
  In c (distinct l) <-> In c l.
Proof. unfold distinct. rewrite distinct_from_in. cbn. tauto. Qed.

Lemma distinct_not_nil (l : list string) : l <> [] -> distinct l <> [].
Proof. destruct l; [contradiction | discriminate]. Qed.

Lemma py_join_not_empty (sep : ascii) (parts : list string) :
  parts <> [] -> (forall p, In p parts -> p <> "") ->
  py_join sep parts <> "".
Proof.
  destruct parts as [|p parts]; [contradiction|]. intros _ H.
  assert (Hp : p <> "") by (apply H; now left).
  destruct p as [|c p]; [contradiction|].
  unfold py_join. cbn. destruct parts; discriminate.
Qed.

(** ** [currencies_used] *)

Lemma get_user_stats_currencies_used store user_id :
  stats_field "currencies_used" (fst (get_user_stats Healthy store user_id)) =
  Some (let joined := py_join comma (distinct (codes_of user_id store)) in
        if String.eqb joined "" then PList []
        else PList (map PStr (py_split comma joined))).
Proof.
  cbn [get_user_stats get_connection negb fst stats_field dict_lookup
       String.eqb Ascii.eqb Bool.eqb].
  unfold currency_stats, currencies_used, sql_group_concat_distinct.
  fold (codes_of user_id store).
  destruct (codes_of user_id store) as [|c codes]; [reflexivity|].
  cbn [py_truthy]. now destruct (String.eqb _ "").
Qed.

(** C9: on a database the program has written, in which no stored code
    contains a comma, [currencies_used] lists exactly the user's distinct
    codes, each once; a stored code that contains a comma is not among the
    elements returned, which are then more than the distinct codes. *)
Theorem C9_currencies_used_is_split_of_joined_codes :
  forall store user_id,
    (reachable store -> no_comma_codes store = true ->
     exists codes,
       stats_field "currencies_used"
         (fst (get_user_stats Healthy store user_id)) =
         Some (PList (map PStr codes)) /\
       NoDup codes /\
       forall c, In c codes <-> In c (codes_of user_id store)) /\
    (forall c,
       In c (codes_of user_id store) -> has_char comma c = true ->
       exists fragments,
         stats_field "currencies_used"
           (fst (get_user_stats Healthy store user_id)) =
           Some (PList (map PStr fragments)) /\
         ~ In c fragments /\
         (length (distinct (codes_of user_id store)) < length fragments)%nat).
Proof.
  intros store user_id. rewrite get_user_stats_currencies_used. cbv zeta.
  split.
  - intros Hreach Hcomma.
    apply reachable_rows_validated in Hreach.
    exists (distinct (codes_of user_id store)).
    split; [|split].
    + destruct (codes_of user_id store) as [|c0 codes] eqn:E; [reflexivity|].
      rewrite <- E.
      assert (Hne : distinct (codes_of user_id store) <> []).
      { apply distinct_not_nil. rewrite E. discriminate. }
      destruct (String.eqb_spec (py_join comma (distinct (codes_of user_id store))) "")
        as [Hempty | _].
      * exfalso. revert Hempty. apply py_join_not_empty; [assumption|].
        intros p Hp. apply -> distinct_in in Hp.
        now apply codes_of_nonempty with (store := store) (user_id := user_id).
      * rewrite py_split_join; [reflexivity | assumption |].
        apply Forall_forall. intros p Hp. apply -> distinct_in in Hp.
        now apply codes_of_no_comma with (store := store) (user_id := user_id).
    + apply distinct_from_nodup.
    + intros c. apply distinct_in.
  - intros c Hin Hc.
    assert (Hd : In c (distinct (codes_of user_id store))) by now apply <- distinct_in.
    pose proof (count_char_join comma _ _ Hd) as Hcount.
    pose proof (has_char_count comma _ Hc) as Hpos.
    exists (py_split comma (py_join comma (distinct (codes_of user_id store)))).
    split; [|split].
    + destruct (String.eqb_spec (py_join comma (distinct (codes_of user_id store))) "")
        as [Hempty | _]; [|reflexivity].
      exfalso. rewrite Hempty in Hcount. cbn in Hcount.
      assert (0 < length (distinct (codes_of user_id store)))%nat.
      { destruct (distinct (codes_of user_id store)); [contradiction | cbn; lia]. }
      lia.
    + intros Hfrag.
      pose proof (py_split_fragments comma
                    (py_join comma (distinct (codes_of user_id store)))) as Hall.
      rewrite Forall_forall in Hall. specialize (Hall c Hfrag). congruence.
    + rewrite py_split_length. lia.
Qed.

Lemma C9_currencies_used_is_split_of_joined_codes_witness :
  exists codes,
    stats_field "currencies_used"
      (fst (get_user_stats Healthy
              (snd (save_currency_request Healthy
                      (snd (save_currency_request Healthy empty_db
                              5 None "USD" (Some (9137 # 100))))
                      5 None "EUR" (Some (9912 # 100))))
              5)) = Some (PList (map PStr codes)) /\
    NoDup codes /\
    forall c, In c codes <->
      In c (codes_of 5
              (snd (save_currency_request Healthy
                      (snd (save_currency_request Healthy empty_db
                              5 None "USD" (Some (9137 # 100))))
                      5 None "EUR" (Some (9912 # 100))))).
Proof.
  apply (proj1 (C9_currencies_used_is_split_of_joined_codes _ 5)).
  - apply reach_currency. apply reach_currency. apply reach_init.
  - reflexivity.
Defined.

(** The fragments of a code with a comma, on a concrete store. *)
Example currencies_used_splits_code_with_comma :
  stats_field "currencies_used"
    (fst (get_user_stats Healthy
            (snd (save_currency_request Healthy empty_db 5 None "US,D"
                    (Some (1 # 1))))
            5)) = Some (PList [PStr "US"; PStr "D"]).
Proof. reflexivity. Qed.

End DatabaseSpec.

(** * Further properties of the fetchers *)

Module BotFacts.
Import Py Bot Outcomes.

(** ** When a quote is returned *)

(** Success of [get_currency_rate] on a document in shape. *)
Lemma get_currency_rate_quote code doc table entry name value previous stamp date :
  dict_lookup "Valute" doc = Some (PDict table) ->
  dict_lookup code table = Some (PDict entry) ->
  dict_lookup "Name" entry = Some name ->
  dict_lookup "Value" entry = Some value ->
  dict_lookup "Previous" entry = Some previous ->
  dict_lookup "Date" doc = Some stamp ->
  py_slice_to stamp 10 = Ok date ->
  get_currency_rate code (ok_response (PDict doc)) =
    (PDict [("name", name); ("value", value); ("previous", previous);
            ("date", date)], []).
Proof.
  intros Ht Hc Hn Hv Hp Hd Hs.
  unfold get_currency_rate, get_currency_rate_try, ok_response.
  cbn [bind status_code json Z.eqb Pos.eqb negb py_in py_getitem].
  rewrite Ht. cbn [bind py_in py_getitem negb]. rewrite Hc.
  cbn [bind py_in py_getitem negb]. rewrite Hn, Hv, Hp, Hd. cbn [bind].
  rewrite Hs. reflexivity.
Qed.

Lemma get_currency_rate_quote_inv code http quote log :
  get_currency_rate code http = (PDict quote, log) ->
  exists doc table entry name value previous stamp date,
    http = ok_response (PDict doc) /\
    dict_lookup "Valute" doc = Some (PDict table) /\
    dict_lookup code table = Some (PDict entry) /\
    dict_lookup "Name" entry = Some name /\
    dict_lookup "Value" entry = Some value /\
    dict_lookup "Previous" entry = Some previous /\
    dict_lookup "Date" doc = Some stamp /\
    py_slice_to stamp 10 = Ok date /\
    quote = [("name", name); ("value", value); ("previous", previous);
             ("date", date)] /\
    log = [].
Proof.
  unfold get_currency_rate, get_currency_rate_try.
  assert (Hexc : forall e, get_currency_rate_except e <> (PDict quote, log)).
  { intros e H. pose proof (BotSpec.get_currency_rate_except_none e) as E.
    rewrite H in E. discriminate E. }
  destruct http as [[status body] | e]; cbn [bind status_code json];
    [|intros H; now apply Hexc in H].
  destruct (status =? 200) eqn:E200; cbn [negb]; [|discriminate].
  apply Z.eqb_eq in E200. subst status.
  destruct body as [data | e]; cbn [bind]; [|intros H; now apply Hexc in H].
  destruct data as [ | b | n | x | s | l | doc]; cbn [py_in bind];
    try (intros H; now apply Hexc in H).
  - destruct (is_substring "Valute" s); cbn [negb bind py_getitem];
      [intros H; now apply Hexc in H | discriminate].
  - destruct (existsb (is_str "Valute") l); cbn [negb bind py_getitem];
      [intros H; now apply Hexc in H | discriminate].
  - destruct (dict_lookup "Valute" doc) as [t|] eqn:Ht; cbn [negb bind];
      [|discriminate].
    cbn [py_getitem]. rewrite Ht. cbn [bind].
    destruct t as [ | | | | ts | tl | table]; cbn [py_in bind];
      try (intros H; now apply Hexc in H).
    + destruct (is_substring code ts); cbn [negb bind py_getitem];
        [intros H; now apply Hexc in H | discriminate].
    + destruct (existsb (is_str code) tl); cbn [negb bind py_getitem];
        [intros H; now apply Hexc in H | discriminate].
    + destruct (dict_lookup code table) as [en|] eqn:Hc; cbn [negb bind];
        [|discriminate].
      cbn [py_getitem bind]. rewrite Hc. cbn [bind].
      destruct en as [ | | | | | | entry]; cbn [py_getitem bind];
        try (intros H; now apply Hexc in H).
      destruct (dict_lookup "Name" entry) as [name|] eqn:Hn; cbn [bind];
        [|intros H; now apply Hexc in H].
      destruct (dict_lookup "Value" entry) as [value|] eqn:Hv; cbn [bind];
        [|intros H; now apply Hexc in H].
      destruct (dict_lookup "Previous" entry) as [previous|] eqn:Hp; cbn [bind];
        [|intros H; now apply Hexc in H].
      destruct (dict_lookup "Date" doc) as [stamp|] eqn:Hd; cbn [bind];
        [|intros H; now apply Hexc in H].
      destruct (py_slice_to stamp 10) as [date|e] eqn:Hs; cbn [bind];
        [|intros H; now apply Hexc in H].
      intros H. injection H as <- <-.
      exists doc, table, entry, name, value, previous, stamp, date.
      repeat split; assumption.
Qed.

(** X1. [get_currency_rate] returns a quote exactly when the response has
    status 200 and its document is an object whose ["Valute"] is an object
    holding, under the requested code, an object with ["Name"], ["Value"]
    and ["Previous"], and whose ["Date"] can be sliced (a string or a
    list); the quote then has these four values and nothing is logged. *)
Theorem get_currency_rate_quote_iff :
  forall code http quote log,
    get_currency_rate code http = (PDict quote, log) <->
    exists doc table entry name value previous stamp date,
      http = ok_response (PDict doc) /\
      dict_lookup "Valute" doc = Some (PDict table) /\
      dict_lookup code table = Some (PDict entry) /\
      dict_lookup "Name" entry = Some name /\
      dict_lookup "Value" entry = Some value /\
      dict_lookup "Previous" entry = Some previous /\
      dict_lookup "Date" doc = Some stamp /\
      py_slice_to stamp 10 = Ok date /\
      quote = [("name", name); ("value", value); ("previous", previous);
               ("date", date)] /\
      log = [].
Proof.
  intros code http quote log. split.
  - apply get_currency_rate_quote_inv.
  - intros (doc & table & entry & name & value & previous & stamp & date &
            -> & Ht & Hc & Hn & Hv & Hp & Hd & Hs & -> & ->).
    now apply get_currency_rate_quote with (table := table) (entry := entry)
                                           (stamp := stamp).
Qed.

Lemma get_currency_rate_quote_iff_witness :
  get_currency_rate "EUR"
    (ok_response
       (PDict [("Date", PList [PInt 2024; PInt 3; PInt 2]);
               ("Valute", PDict [("EUR", PDict [("Name", PStr "Euro");
                                                ("Value", PNone);
                                                ("Previous", PInt 99)])])]))
  = (PDict [("name", PStr "Euro"); ("value", PNone); ("previous", PInt 99);
            ("date", PList [PInt 2024; PInt 3; PInt 2])], []).
Proof.
  apply (proj2 (get_currency_rate_quote_iff _ _ _ _)).
  do 8 eexists. repeat split; reflexivity.
Defined.

Lemma get_weather_snapshot_iff_witness :
  get_weather "Perm"
    (ok_response
       (PDict [("main", PDict [("temp", PFloat (-12 # 1))]);
               ("weather", PList [PDict [("description", PNone)]; PNone]);
               ("wind", PDict [])]))
  = (PDict [("city", PStr "Perm"); ("temp", PFloat (-12 # 1));
            ("feels_like", PNone); ("description", PNone);
            ("humidity", PInt 0); ("wind", PInt 0); ("pressure", PInt 0)], []).
Proof.
  apply (proj2 (BotSpec.get_weather_snapshot_iff _ _ _ _)).
  do 5 eexists. repeat split; reflexivity.
Defined.

(** ** Failures are logged, successes are not *)

Lemma try_bind {A : Type} (c : exc A) (k : A -> exc outcome) :
  (forall a, match k a with
             | Ok o => failed o \/ succeeded o
             | Raise _ => True
             end) ->
  match bind c k with
  | Ok o => failed o \/ succeeded o
  | Raise _ => True
  end.
Proof. intros H. destruct c as [a | e]; cbn; [apply H | exact I]. Qed.

Lemma failed_intro (r : log_record) : failed (PNone, [r]).
Proof. split; [reflexivity | now exists r]. Qed.

Lemma succeeded_intro (d : list (string * pyval)) : succeeded (PDict d, []).
Proof. split; [now exists d | reflexivity]. Qed.

Ltac walk_try :=
  repeat first
    [ apply try_bind; intros
    | match goal with
      | |- context [if ?b then _ else _] => destruct b
      end ];
  cbn; first [ left; apply failed_intro | right; apply succeeded_intro ].

(** X3. Every call of a fetcher ends in one of two ways: it returns [None]
    and logs exactly one record, or it returns a dict and logs nothing. *)
Theorem fetchers_log_exactly_their_failures :
  (forall code http,
     failed (get_currency_rate code http) \/
     succeeded (get_currency_rate code http)) /\
  (forall city http,
     failed (get_weather city http) \/ succeeded (get_weather city http)).
Proof.
  split.
  - intros code http. unfold get_currency_rate.
    assert (H : match get_currency_rate_try code http with
                | Ok o => failed o \/ succeeded o
                | Raise _ => True
                end) by (unfold get_currency_rate_try; walk_try).
    destruct (get_currency_rate_try code http) as [o | e]; [exact H|].
    left. destruct e; apply failed_intro.
  - intros city http. unfold get_weather.
    assert (H : match get_weather_try city http with
                | Ok o => failed o \/ succeeded o
                | Raise _ => True
                end) by (unfold get_weather_try; walk_try).
    destruct (get_weather_try city http) as [o | e]; [exact H|].
    left. destruct e; apply failed_intro.
Qed.

(** ** The date of a quote *)

Lemma substring_0_length (n : nat) (s : string) :
  String.length (String.substring 0 n s) = Nat.min n (String.length s).
Proof.
  revert s. induction n as [|n IH]; intros [|c s]; cbn; try reflexivity.
  now rewrite IH.
Qed.

Lemma substring_0_prefix (n : nat) (s : string) :
  String.prefix (String.substring 0 n s) s = true.
Proof.
  revert s. induction n as [|n IH]; intros [|c s]; cbn; try reflexivity.
  destruct (Ascii.ascii_dec c c) as [_ | Hne]; [apply IH | contradiction].
Qed.

(** X4. When the document's ["Date"] is a string and a quote is
    returned, the quote's date is a prefix of that string, of ten
    characters or of the whole string when it is shorter. *)
Theorem quote_date_is_prefix_of_at_most_ten :
  forall code doc stamp quote log,
    dict_lookup "Date" doc = Some (PStr stamp) ->
    get_currency_rate code (ok_response (PDict doc)) = (PDict quote, log) ->
    exists date,
      dict_lookup "date" quote = Some (PStr date) /\
      String.length date = Nat.min 10 (String.length stamp) /\
      String.prefix date stamp = true.
Proof.
  intros code doc stamp quote log Hd H.
  apply get_currency_rate_quote_inv in H.
  destruct H as (doc' & table & entry & name & value & previous & stamp' & date
                 & E & _ & _ & _ & _ & _ & Hd' & Hs & -> & _).
  injection E as <-. rewrite Hd in Hd'. injection Hd' as <-.
  cbn in Hs. injection Hs as <-.
  exists (String.substring 0 10 stamp). split; [reflexivity|]. split.
  - apply substring_0_length.
  - apply substring_0_prefix.
Qed.

Lemma quote_date_is_prefix_of_at_most_ten_witness :
  exists date,
    dict_lookup "date"
      [("name", PStr "Yen"); ("value", PFloat (61 # 100));
       ("previous", PFloat (60 # 100)); ("date", PStr "2024-03")]
      = Some (PStr date) /\
    String.length date = Nat.min 10 (String.length "2024-03") /\
    String.prefix date "2024-03" = true.
Proof.
  apply (quote_date_is_prefix_of_at_most_ten "JPY"
           [("Date", PStr "2024-03");
            ("Valute", PDict [("JPY", PDict [("Name", PStr "Yen");
                                             ("Value", PFloat (61 # 100));
                                             ("Previous", PFloat (60 # 100))])])]
           "2024-03" _ []); reflexivity.
Defined.

End BotFacts.

(** * Further properties of the record store *)

Module DatabaseFacts.
Import Py Database Session.

(** ** What a save writes *)

(** X5. [save_weather_request] returns [True] exactly when the city is
    not empty, the temperature is not [None] and SQLite is healthy; it has
    then appended the record, and nothing else, after the rows of its
    table; when it returns [False] the database is as it was. *)
Theorem save_weather_request_appends_iff_true :
  forall cond store user_id username city temperature description,
    let '(saved, _, store') :=
      save_weather_request cond store user_id username city temperature
        description in
    (saved = true <-> city <> "" /\ temperature <> None /\ cond = Healthy) /\
    (saved = true ->
     store' =
       {| weather_requests :=
            weather_requests store ++
            [{| w_user_id := user_id; w_username := username; w_city := city;
                w_temperature := temperature;
                w_description := description |}];
          currency_requests := currency_requests store |}) /\
    (saved = false -> store' = store).
Proof.
  intros cond store user_id username city temperature description.
  unfold save_weather_request. cbn [py_truthy].
  destruct (String.eqb_spec city "") as [-> | Hc]; cbn [negb orb].
  { repeat split; try discriminate; intros; tauto. }
  destruct temperature as [t|]; cbn [is_none].
  2:{ repeat split; try discriminate; intros; tauto. }
  destruct cond; cbn; repeat split; try discriminate; try congruence; auto;
    intros (_ & _ & H); discriminate H.
Qed.

(** X6. [save_currency_request] returns [True] exactly when the code is
    not empty, the rate is not [None] and SQLite is healthy; it has then
    appended the record, and nothing else, after the rows of its table;
    when it returns [False] the database is as it was. *)
Theorem save_currency_request_appends_iff_true :
  forall cond store user_id username currency_code rate,
    let '(saved, _, store') :=
      save_currency_request cond store user_id username currency_code rate in
    (saved = true <->
     currency_code <> "" /\ rate <> None /\ cond = Healthy) /\
    (saved = true ->
     store' =
       {| weather_requests := weather_requests store;
          currency_requests :=
            currency_requests store ++
            [{| c_user_id := user_id; c_username := username;
                c_currency_code := currency_code; c_rate := rate |}] |}) /\
    (saved = false -> store' = store).
Proof.
  intros cond store user_id username currency_code rate.
  unfold save_currency_request. cbn [py_truthy].
  destruct (String.eqb_spec currency_code "") as [-> | Hc]; cbn [negb orb].
  { repeat split; try discriminate; intros; tauto. }
  destruct rate as [t|]; cbn [is_none].
  2:{ repeat split; try discriminate; intros; tauto. }
  destruct cond; cbn; repeat split; try discriminate; try congruence; auto;
    intros (_ & _ & H); discriminate H.
Qed.

Lemma save_weather_request_appends_iff_true_witness :
  fst (fst (save_weather_request Healthy empty_db 2 None "Kazan"
              (Some (5 # 1)) "sun")) = true /\
  snd (save_weather_request Healthy empty_db 2 None "Kazan"
         (Some (5 # 1)) "sun") =
    {| weather_requests :=
         [{| w_user_id := 2; w_username := None; w_city := "Kazan";
             w_temperature := Some (5 # 1); w_description := "sun" |}];
       currency_requests := [] |}.
Proof.
  pose proof (save_weather_request_appends_iff_true Healthy empty_db 2 None
                "Kazan" (Some (5 # 1)) "sun") as H.
  cbn in H |- *. destruct H as (Hiff & Ht & _).
  assert (Hs : true = true).
  { apply (proj2 Hiff). repeat split; discriminate. }
  split; [exact Hs | exact (Ht Hs)].
Defined.

Lemma save_currency_request_appends_iff_true_witness :
  fst (fst (save_currency_request Healthy empty_db 2 (Some "li") "GBP"
              (Some (115 # 1)))) = true /\
  snd (save_currency_request Healthy empty_db 2 (Some "li") "GBP"
         (Some (115 # 1))) =
    {| weather_requests := [];
       currency_requests :=
         [{| c_user_id := 2; c_username := Some "li";
             c_currency_code := "GBP"; c_rate := Some (115 # 1) |}] |}.
Proof.
  pose proof (save_currency_request_appends_iff_true Healthy empty_db 2
                (Some "li") "GBP" (Some (115 # 1))) as H.
  cbn in H |- *. destruct H as (Hiff & Ht & _).
  assert (Hs : true = true).
  { apply (proj2 Hiff). repeat split; discriminate. }
  split; [exact Hs | exact (Ht Hs)].
Defined.

(** The rows of a user after a save, whatever it returned. *)
Lemma weather_of_after_weather cond store user_id username city temperature
    description u :
  exists extra,
    weather_of u (snd (save_weather_request cond store user_id username city
                         temperature description)) =
      weather_of u store ++ extra /\
    (u <> user_id -> extra = []) /\
    currency_requests (snd (save_weather_request cond store user_id username
                              city temperature description)) =
      currency_requests store.
Proof.
  pose proof (save_weather_request_appends_iff_true cond store user_id username
                city temperature description) as H.
  destruct (save_weather_request cond store user_id username city temperature
              description) as [[saved log] store'].
  destruct H as (_ & Ht & Hf). cbn [snd].
  destruct saved.
  - rewrite (Ht eq_refl). destruct store as [ws cs].
    cbn [weather_requests currency_requests].
    rewrite DatabaseSpec.weather_of_app. cbn [w_user_id].
    eexists. split; [reflexivity|]. split; [|reflexivity].
    intros Hu. apply Z.eqb_neq in Hu. rewrite Z.eqb_sym in Hu. now rewrite Hu.
  - rewrite (Hf eq_refl). exists []. rewrite app_nil_r. auto.
Qed.

Lemma currency_of_app user_id ws cs r :
  currency_of user_id
    {| weather_requests := ws; currency_requests := cs ++ [r] |} =
  currency_of user_id {| weather_requests := ws; currency_requests := cs |} ++
  (if c_user_id r =? user_id then [r] else []).
Proof. unfold currency_of. cbn. now rewrite filter_app. Qed.

Lemma currency_of_after_currency cond store user_id username currency_code
    rate u :
  exists extra,
    currency_of u (snd (save_currency_request cond store user_id username
                          currency_code rate)) =
      currency_of u store ++ extra /\
    (u <> user_id -> extra = []) /\
    weather_requests (snd (save_currency_request cond store user_id username
                             currency_code rate)) =
      weather_requests store.
Proof.
  pose proof (save_currency_request_appends_iff_true cond store user_id username
                currency_code rate) as H.
  destruct (save_currency_request cond store user_id username currency_code
              rate) as [[saved log] store'].
  destruct H as (_ & Ht & Hf). cbn [snd].
  destruct saved.
  - rewrite (Ht eq_refl). destruct store as [ws cs].
    cbn [weather_requests currency_requests].
    rewrite currency_of_app. cbn [c_user_id].
    eexists. split; [reflexivity|]. split; [|reflexivity].
    intros Hu. apply Z.eqb_neq in Hu. rewrite Z.eqb_sym in Hu. now rewrite Hu.
  - rewrite (Hf eq_refl). exists []. rewrite app_nil_r. auto.
Qed.

(** ** The invariant of the stored rows *)



(** ** What a save leaves alone *)

Lemma get_user_stats_ext cond s1 s2 u :
  weather_of u s1 = weather_of u s2 ->
  currency_of u s1 = currency_of u s2 ->
  get_user_stats cond s1 u = get_user_stats cond s2 u.
Proof.
  intros Hw Hc. unfold get_user_stats, weather_stats, currency_stats.
  now rewrite Hw, Hc.
Qed.

Lemma currency_of_same_table u s1 s2 :
  currency_requests s1 = currency_requests s2 ->
  currency_of u s1 = currency_of u s2.
Proof. unfold currency_of. now intros ->. Qed.

Lemma weather_of_same_table u s1 s2 :
  weather_requests s1 = weather_requests s2 ->
  weather_of u s1 = weather_of u s2.
Proof. unfold weather_of. now intros ->. Qed.

(** X8. A save for one user, whatever it returns, leaves the statistics
    of every other user as they were. *)
Theorem save_leaves_other_users_statistics :
  forall cond cond' store user_id username city temperature description
         currency_code rate u,
    u <> user_id ->
    get_user_stats cond'
      (snd (save_weather_request cond store user_id username city temperature
              description)) u
    = get_user_stats cond' store u /\
    get_user_stats cond'
      (snd (save_currency_request cond store user_id username currency_code
              rate)) u
    = get_user_stats cond' store u.
Proof.
  intros cond cond' store user_id username city temperature description
    currency_code rate u Hu.
  split; apply get_user_stats_ext.
  - destruct (weather_of_after_weather cond store user_id username city
                temperature description u) as (extra & E & Hx & _).
    rewrite E, (Hx Hu). apply app_nil_r.
  - destruct (weather_of_after_weather cond store user_id username city
                temperature description u) as (_ & _ & _ & E).
    now apply currency_of_same_table.
  - destruct (currency_of_after_currency cond store user_id username
                currency_code rate u) as (_ & _ & _ & E).
    now apply weather_of_same_table.
  - destruct (currency_of_after_currency cond store user_id username
                currency_code rate u) as (extra & E & Hx & _).
    rewrite E, (Hx Hu). apply app_nil_r.
Qed.

Lemma save_leaves_other_users_statistics_witness :
  get_user_stats Healthy
    (snd (save_weather_request Healthy
            (snd (save_weather_request Healthy empty_db 8 None "Omsk"
                    (Some (3 # 1)) "rain"))
            9 None "Ufa" (Some (30 # 1)) "sun")) 8
  = get_user_stats Healthy
      (snd (save_weather_request Healthy empty_db 8 None "Omsk"
              (Some (3 # 1)) "rain")) 8.
Proof.
  apply (save_leaves_other_users_statistics Healthy Healthy
           (snd (save_weather_request Healthy empty_db 8 None "Omsk"
                   (Some (3 # 1)) "rain"))
           9 None "Ufa" (Some (30 # 1)) "sun" "" None 8).
  lia.
Defined.

(** X9. A weather save changes no user's currency statistics, and a
    currency save changes no user's weather statistics. *)
Theorem save_leaves_the_other_table_statistics :
  forall cond store user_id username city temperature description
         currency_code rate u,
    (let store' := snd (save_weather_request cond store user_id username city
                          temperature description) in
     currency_stats u store' = currency_stats u store /\
     stats_field "currency_requests" (fst (get_user_stats Healthy store' u)) =
       stats_field "currency_requests" (fst (get_user_stats Healthy store u)) /\
     stats_field "currencies_used" (fst (get_user_stats Healthy store' u)) =
       stats_field "currencies_used" (fst (get_user_stats Healthy store u))) /\
    (let store' := snd (save_currency_request cond store user_id username
                          currency_code rate) in
     weather_stats u store' = weather_stats u store /\
     stats_field "weather_requests" (fst (get_user_stats Healthy store' u)) =
       stats_field "weather_requests" (fst (get_user_stats Healthy store u)) /\
     stats_field "avg_temperature" (fst (get_user_stats Healthy store' u)) =
       stats_field "avg_temperature" (fst (get_user_stats Healthy store u))).
Proof.
  intros cond store user_id username city temperature description
    currency_code rate u.
  split; cbv zeta.
  - destruct (weather_of_after_weather cond store user_id username city
                temperature description u) as (_ & _ & _ & E).
    assert (H : currency_stats u
                  (snd (save_weather_request cond store user_id username city
                          temperature description)) = currency_stats u store).
    { unfold currency_stats.
      now rewrite (currency_of_same_table u _ _ E). }
    split; [exact H|].
    cbn [get_user_stats get_connection negb fst stats_field dict_lookup
         String.eqb Ascii.eqb Bool.eqb].
    rewrite H. split; reflexivity.
  - destruct (currency_of_after_currency cond store user_id username
                currency_code rate u) as (_ & _ & _ & E).
    assert (H : weather_stats u
                  (snd (save_currency_request cond store user_id username
                          currency_code rate)) = weather_stats u store).
    { unfold weather_stats.
      now rewrite (weather_of_same_table u _ _ E). }
    split; [exact H|].
    cbn [get_user_stats get_connection negb fst stats_field dict_lookup
         String.eqb Ascii.eqb Bool.eqb].
    rewrite H. split; reflexivity.
Qed.

(** ** When statistics are available *)



(** ** Counts over a sequence of calls *)

Lemma run_reachable rs store : reachable store -> reachable (run rs store).
Proof.
  revert store. induction rs as [|r rs IH]; intros store H; cbn; [exact H|].
  apply IH. destruct r as [c u n ci t d | c u n co ra]; cbn [perform].
  - pose proof (reach_weather c store u n ci t d H) as R.
    destruct (save_weather_request c store u n ci t d) as [[? ?] ?]. exact R.
  - pose proof (reach_currency c store u n co ra H) as R.
    destruct (save_currency_request c store u n co ra) as [[? ?] ?]. exact R.
Qed.

Lemma perform_weather_count r store u :
  length (weather_of u (snd (perform r store))) =
  (length (weather_of u store)
   + (if is_weather_for u r && fst (perform r store) then 1 else 0))%nat.
Proof.
  destruct r as [c v n ci t d | c v n co ra]; cbn [perform is_weather_for].
  - pose proof (save_weather_request_appends_iff_true c store v n ci t d) as H.
    destruct (save_weather_request c store v n ci t d) as [[saved log] store'].
    destruct H as (_ & Ht & Hf). cbn [fst snd]. destruct saved.
    + rewrite (Ht eq_refl). destruct store as [ws cs].
      cbn [weather_requests currency_requests].
      rewrite DatabaseSpec.weather_of_app, length_app. cbn [w_user_id].
      rewrite andb_true_r. now destruct (v =? u).
    + rewrite (Hf eq_refl), andb_false_r. lia.
  - destruct (currency_of_after_currency c store v n co ra u) as (_ & _ & _ & E).
    destruct (save_currency_request c store v n co ra) as [[saved log] store'].
    cbn [fst snd andb] in *. rewrite (weather_of_same_table u _ _ E). lia.
Qed.

Lemma perform_currency_count r store u :
  length (currency_of u (snd (perform r store))) =
  (length (currency_of u store)
   + (if is_currency_for u r && fst (perform r store) then 1 else 0))%nat.
Proof.
  destruct r as [c v n ci t d | c v n co ra]; cbn [perform is_currency_for].
  - destruct (weather_of_after_weather c store v n ci t d u) as (_ & _ & _ & E).
    destruct (save_weather_request c store v n ci t d) as [[saved log] store'].
    cbn [fst snd andb] in *. rewrite (currency_of_same_table u _ _ E). lia.
  - pose proof (save_currency_request_appends_iff_true c store v n co ra) as H.
    destruct (save_currency_request c store v n co ra) as [[saved log] store'].
    destruct H as (_ & Ht & Hf). cbn [fst snd]. destruct saved.
    + rewrite (Ht eq_refl). destruct store as [ws cs].
      cbn [weather_requests currency_requests].
      rewrite currency_of_app, length_app. cbn [c_user_id].
      rewrite andb_true_r. now destruct (v =? u).
    + rewrite (Hf eq_refl), andb_false_r. lia.
Qed.

(** X13. After any sequence of save calls, under any conditions, a user
    has as many more weather rows as calls of [save_weather_request] for
    that user returned [True], and as many more currency rows as calls of
    [save_currency_request] did; started on the empty database, these are
    the counts [get_user_stats] reports. *)
Theorem counts_are_the_successful_saves :
  forall rs u,
    (forall store,
       length (weather_of u (run rs store)) =
         (length (weather_of u store)
          + saved_count (is_weather_for u) rs store)%nat /\
       length (currency_of u (run rs store)) =
         (length (currency_of u store)
          + saved_count (is_currency_for u) rs store)%nat) /\
    stats_field "weather_requests"
      (fst (get_user_stats Healthy (run rs empty_db) u)) =
      Some (PInt (Z.of_nat (saved_count (is_weather_for u) rs empty_db))) /\
    stats_field "currency_requests"
      (fst (get_user_stats Healthy (run rs empty_db) u)) =
      Some (PInt (Z.of_nat (saved_count (is_currency_for u) rs empty_db))).
Proof.
  intros rs u.
  assert (H : forall store,
             length (weather_of u (run rs store)) =
               (length (weather_of u store)
                + saved_count (is_weather_for u) rs store)%nat /\
             length (currency_of u (run rs store)) =
               (length (currency_of u store)
                + saved_count (is_currency_for u) rs store)%nat).
  { induction rs as [|r rs IH]; intros store; cbn [run saved_count].
    - split; lia.
    - destruct (IH (snd (perform r store))) as [Hw Hc].
      rewrite Hw, Hc, perform_weather_count, perform_currency_count.
      split; lia. }
  split; [exact H|].
  destruct (H empty_db) as [Hw Hc].
  cbn [get_user_stats get_connection negb fst stats_field dict_lookup
       String.eqb Ascii.eqb Bool.eqb weather_stats currency_stats row_count].
  rewrite Hw, Hc. cbn. split; reflexivity.
Qed.

(** ** Rows are only ever appended *)

Lemma perform_appends r store :
  exists ws cs,
    weather_requests (snd (perform r store)) = weather_requests store ++ ws /\
    currency_requests (snd (perform r store)) = currency_requests store ++ cs.
Proof.
  destruct r as [c v n ci t d | c v n co ra]; cbn [perform].
  - pose proof (save_weather_request_appends_iff_true c store v n ci t d) as H.
    destruct (save_weather_request c store v n ci t d) as [[saved log] store'].
    destruct H as (_ & Ht & Hf). cbn [snd]. destruct saved.
    + rewrite (Ht eq_refl). cbn. eexists. exists [].
      split; [reflexivity | now rewrite app_nil_r].
    + rewrite (Hf eq_refl). exists [], []. now rewrite !app_nil_r.
  - pose proof (save_currency_request_appends_iff_true c store v n co ra) as H.
    destruct (save_currency_request c store v n co ra) as [[saved log] store'].
    destruct H as (_ & Ht & Hf). cbn [snd]. destruct saved.
    + rewrite (Ht eq_refl). cbn. exists []. eexists.
      split; [now rewrite app_nil_r | reflexivity].
    + rewrite (Hf eq_refl). exists [], []. now rewrite !app_nil_r.
Qed.

(** X19. No sequence of save calls removes, changes or reorders a stored
    row: the rows of each table before the calls are the first rows of
    that table after them. *)
Theorem rows_are_only_appended :
  forall rs store,
    exists ws cs,
      weather_requests (run rs store) = weather_requests store ++ ws /\
      currency_requests (run rs store) = currency_requests store ++ cs.
Proof.
  induction rs as [|r rs IH]; intros store; cbn [run].
  - exists [], []. now rewrite !app_nil_r.
  - destruct (IH (snd (perform r store))) as (ws2 & cs2 & Hw2 & Hc2).
    destruct (perform_appends r store) as (ws1 & cs1 & Hw1 & Hc1).
    exists (ws1 ++ ws2), (cs1 ++ cs2).
    rewrite Hw2, Hc2, Hw1, Hc1, !app_assoc. auto.
Qed.

(** ** The codes a user has asked for *)

Lemma currencies_used_distinct store u :
  rows_validated store = true ->
  no_comma_codes store = true ->
  stats_field "currencies_used" (fst (get_user_stats Healthy store u)) =
    Some (PList (map PStr (distinct (codes_of u store)))).
Proof.
  intros Hv Hcomma. rewrite DatabaseSpec.get_user_stats_currencies_used.
  cbv zeta.
  destruct (codes_of u store) as [|c0 codes] eqn:E; [reflexivity|].
  rewrite <- E.
  assert (Hne : distinct (codes_of u store) <> []).
  { apply DatabaseSpec.distinct_not_nil. rewrite E. discriminate. }
  destruct (String.eqb_spec (py_join comma (distinct (codes_of u store))) "")
    as [Hempty | _].
  - exfalso. revert Hempty.
    apply DatabaseSpec.py_join_not_empty; [assumption|].
    intros p Hp. apply -> DatabaseSpec.distinct_in in Hp.
    now apply DatabaseSpec.codes_of_nonempty with (store := store) (user_id := u).
  - rewrite DatabaseSpec.py_split_join; [reflexivity | assumption |].
    apply Forall_forall. intros p Hp. apply -> DatabaseSpec.distinct_in in Hp.
    now apply DatabaseSpec.codes_of_no_comma with (store := store) (user_id := u).
Qed.

Lemma distinct_from_snoc (l seen : list string) (c : string) :
  distinct_from seen (l ++ [c]) =
  distinct_from seen l ++
  (if existsb (String.eqb c) seen || existsb (String.eqb c) l then [] else [c]).
Proof.
  revert seen. induction l as [|x l IH]; intros seen; cbn.
  - rewrite orb_false_r. now destruct (existsb (String.eqb c) seen).
  - destruct (existsb (String.eqb x) seen) eqn:Ex.
    + rewrite IH. f_equal.
      destruct (String.eqb_spec c x) as [-> | Hne]; cbn.
      * now rewrite Ex.
      * reflexivity.
    + cbn. rewrite IH. cbn. f_equal. f_equal.
      destruct (String.eqb c x), (existsb (String.eqb c) seen),
        (existsb (String.eqb c) l); reflexivity.
Qed.

Lemma existsb_distinct (c : string) (l : list string) :
  existsb (String.eqb c) (distinct l) = existsb (String.eqb c) l.
Proof.
  apply eq_true_iff_eq. rewrite !DatabaseSpec.seen_iff.
  apply DatabaseSpec.distinct_in.
Qed.

(** X10. On a database the program has written, without commas in its
    codes, a successful save of a comma-free code raises the user's
    [currency_requests] by one and leaves [currencies_used] as it was when
    the code was already listed, or else adds the code at its end. *)
Theorem saved_code_is_listed_once :
  forall store u username code q,
    reachable store ->
    no_comma_codes store = true ->
    code <> "" ->
    has_char comma code = false ->
    let store' :=
      snd (save_currency_request Healthy store u username code (Some q)) in
    exists used,
      stats_field "currencies_used" (fst (get_user_stats Healthy store u)) =
        Some (PList (map PStr used)) /\
      stats_field "currencies_used" (fst (get_user_stats Healthy store' u)) =
        Some (PList (map PStr (if existsb (String.eqb code) used then used
                               else used ++ [code]))) /\
      stats_field "currency_requests" (fst (get_user_stats Healthy store' u)) =
        Some (PInt (Z.of_nat (length (currency_of u store)) + 1)).
Proof.
  intros store u username code q Hreach Hcomma Hcode Hnc store'.
  apply DatabaseSpec.reachable_rows_validated in Hreach.
  pose proof (save_currency_request_appends_iff_true Healthy store u username
                code (Some q)) as H.
  pose proof (DatabaseSpec.save_currency_request_validated Healthy store u
                username code (Some q) Hreach) as Hv'.
  fold store' in Hv'. subst store'.
  destruct (save_currency_request Healthy store u username code (Some q))
    as [[saved log] store'].
  destruct H as (Hiff & Ht & _). cbn [snd] in *.
  assert (Hs : saved = true).
  { apply Hiff. repeat split; [assumption | discriminate]. }
  specialize (Ht Hs). subst store'. destruct store as [ws cs].
  cbn [weather_requests currency_requests] in *.
  assert (Hcodes : codes_of u {| weather_requests := ws;
                                 currency_requests := cs ++ [{|
                                   c_user_id := u; c_username := username;
                                   c_currency_code := code;
                                   c_rate := Some q |}] |} =
                   codes_of u {| weather_requests := ws;
                                 currency_requests := cs |} ++ [code]).
  { unfold codes_of. rewrite currency_of_app. cbn [c_user_id].
    rewrite Z.eqb_refl, map_app. reflexivity. }
  assert (Hcomma' : no_comma_codes
                      {| weather_requests := ws;
                         currency_requests := cs ++ [{|
                           c_user_id := u; c_username := username;
                           c_currency_code := code; c_rate := Some q |}] |}
                    = true).
  { unfold no_comma_codes in *. cbn [currency_requests] in *.
    rewrite forallb_app, Hcomma. cbn. now rewrite Hnc. }
  exists (distinct (codes_of u {| weather_requests := ws;
                                  currency_requests := cs |})).
  split; [now apply currencies_used_distinct|]. split.
  - rewrite (currencies_used_distinct _ u Hv' Hcomma'), Hcodes.
    unfold distinct at 1. rewrite distinct_from_snoc. cbn [existsb orb].
    fold (distinct (codes_of u {| weather_requests := ws;
                                  currency_requests := cs |})).
    rewrite existsb_distinct.
    destruct (existsb (String.eqb code) _); [now rewrite app_nil_r|reflexivity].
  - cbn [get_user_stats get_connection negb fst stats_field dict_lookup
         String.eqb Ascii.eqb Bool.eqb currency_stats row_count].
    rewrite currency_of_app, length_app. cbn [c_user_id].
    rewrite Z.eqb_refl. cbn [length]. do 2 f_equal. lia.
Qed.

Lemma saved_code_is_listed_once_witness :
  exists used,
    stats_field "currencies_used" (fst (get_user_stats Healthy empty_db 6)) =
      Some (PList (map PStr used)) /\
    stats_field "currencies_used"
      (fst (get_user_stats Healthy
              (snd (save_currency_request Healthy empty_db 6 None "CNY"
                      (Some (127 # 10)))) 6)) =
      Some (PList (map PStr (if existsb (String.eqb "CNY") used then used
                             else used ++ ["CNY"]))) /\
    stats_field "currency_requests"
      (fst (get_user_stats Healthy
              (snd (save_currency_request Healthy empty_db 6 None "CNY"
                      (Some (127 # 10)))) 6)) =
      Some (PInt (Z.of_nat (length (currency_of 6 empty_db)) + 1)).
Proof.
  apply (saved_code_is_listed_once empty_db 6 None "CNY" (127 # 10)).
  - apply reach_init.
  - reflexivity.
  - discriminate.
  - reflexivity.
Defined.

(** X11. On a database the program has written, [currencies_used] is the
    empty list exactly when the user has no currency row. *)
Theorem currencies_used_empty_iff_no_rows :
  forall store u,
    reachable store ->
    (stats_field "currencies_used" (fst (get_user_stats Healthy store u)) =
       Some (PList []) <->
     currency_of u store = []).
Proof.
  intros store u Hreach.
  apply DatabaseSpec.reachable_rows_validated in Hreach.
  rewrite DatabaseSpec.get_user_stats_currencies_used. cbv zeta.
  unfold codes_of. split.
  - intros H.
    destruct (currency_of u store) as [|r rows] eqn:E; [reflexivity|].
    exfalso. rewrite <- E in H. fold (codes_of u store) in H.
    assert (Hne : distinct (codes_of u store) <> []).
    { apply DatabaseSpec.distinct_not_nil. unfold codes_of. rewrite E.
      discriminate. }
    destruct (String.eqb_spec (py_join comma (distinct (codes_of u store))) "")
      as [Hempty | _].
    + revert Hempty. apply DatabaseSpec.py_join_not_empty; [assumption|].
      intros p Hp. apply -> DatabaseSpec.distinct_in in Hp.
      now apply DatabaseSpec.codes_of_nonempty with (store := store) (user_id := u).
    + injection H as H. apply map_eq_nil in H.
      now apply DatabaseSpec.py_split_not_nil in H.
  - intros ->. reflexivity.
Qed.

Lemma currencies_used_empty_iff_no_rows_witness :
  stats_field "currencies_used"
    (fst (get_user_stats Healthy
            (snd (save_currency_request Healthy empty_db 6 None "CNY"
                    (Some (127 # 10)))) 7)) = Some (PList []).
Proof.
  apply (currencies_used_empty_iff_no_rows
           (snd (save_currency_request Healthy empty_db 6 None "CNY"
                   (Some (127 # 10)))) 7).
  - apply reach_currency. apply reach_init.
  - reflexivity.
Defined.

(** ** Joining what was split *)

Lemma py_join_cons_char (sep c : ascii) (h : string) (t : list string) :
  py_join sep (String c h :: t) = String c (py_join sep (h :: t)).
Proof. unfold py_join. now destruct t. Qed.

Lemma py_join_split (sep : ascii) (s : string) :
  py_join sep (py_split sep s) = s.
Proof.
  induction s as [|c s IH]; cbn [py_split]; [reflexivity|].
  pose proof (DatabaseSpec.py_split_not_nil sep s) as Hn.
  remember (py_split sep s) as parts eqn:E.
  destruct parts as [|h t]; [contradiction|].
  destruct (Ascii.eqb_spec c sep) as [-> | Hne].
  - change (py_join sep (EmptyString :: h :: t))
      with (String sep (py_join sep (h :: t))).
    now rewrite IH.
  - now rewrite py_join_cons_char, IH.
Qed.

(** X14. For a user with a currency row, on a database the program has
    written, the elements of [currencies_used] joined by commas are the
    user's distinct codes joined by commas: the split loses nothing, also
    when a code contains a comma. *)
Theorem currencies_used_rejoined :
  forall store u,
    reachable store ->
    currency_of u store <> [] ->
    exists fragments,
      stats_field "currencies_used" (fst (get_user_stats Healthy store u)) =
        Some (PList (map PStr fragments)) /\
      py_join comma fragments = py_join comma (distinct (codes_of u store)).
Proof.
  intros store u Hreach Hrows.
  apply DatabaseSpec.reachable_rows_validated in Hreach.
  rewrite DatabaseSpec.get_user_stats_currencies_used. cbv zeta.
  assert (Hne : distinct (codes_of u store) <> []).
  { apply DatabaseSpec.distinct_not_nil. unfold codes_of.
    destruct (currency_of u store); [contradiction | discriminate]. }
  destruct (String.eqb_spec (py_join comma (distinct (codes_of u store))) "")
    as [Hempty | _].
  - exfalso. revert Hempty.
    apply DatabaseSpec.py_join_not_empty; [assumption|].
    intros p Hp. apply -> DatabaseSpec.distinct_in in Hp.
    now apply DatabaseSpec.codes_of_nonempty with (store := store) (user_id := u).
  - eexists. split; [reflexivity|]. apply py_join_split.
Qed.

Lemma currencies_used_rejoined_witness :
  exists fragments,
    stats_field "currencies_used"
      (fst (get_user_stats Healthy
              (snd (save_currency_request Healthy empty_db 6 None "A,B"
                      (Some (1 # 1)))) 6)) =
      Some (PList (map PStr fragments)) /\
    py_join comma fragments =
      py_join comma
        (distinct (codes_of 6
                     (snd (save_currency_request Healthy empty_db 6 None "A,B"
                             (Some (1 # 1)))))).
Proof.
  apply (currencies_used_rejoined
           (snd (save_currency_request Healthy empty_db 6 None "A,B"
                   (Some (1 # 1)))) 6).
  - apply reach_currency. apply reach_init.
  - discriminate.
Defined.

End DatabaseFacts.

(** * Properties of [init_db] *)

Module StorageFacts.
Import Py Database Storage.

(** X15. Under every condition [init_db] keeps each existing table with
    its rows; when both tables exist it leaves the file as it was. *)
Theorem init_db_keeps_existing_tables :
  forall cond file,
    let '(_, _, file') := init_db cond file in
    (forall rows, weather_table file = Some rows ->
                  weather_table file' = Some rows) /\
    (forall rows, currency_table file = Some rows ->
                  currency_table file' = Some rows) /\
    (forall store, tables file = Some store -> file' = file).
Proof.
  intros cond [w c].
  destruct cond as [ | | [ | | ]]; cbn; repeat split;
    try (intros rows ->; reflexivity);
    destruct w, c; cbn; intros; congruence.
Qed.

Lemma init_db_keeps_existing_tables_witness :
  weather_table
    (snd (init_db (InitFailsAt CreateCurrencyTable)
            {| weather_table :=
                 Some [{| w_user_id := 1; w_username := None; w_city := "Oslo";
                          w_temperature := Some (4 # 1);
                          w_description := "rain" |}];
               currency_table := None |}))
  = Some [{| w_user_id := 1; w_username := None; w_city := "Oslo";
             w_temperature := Some (4 # 1); w_description := "rain" |}].
Proof.
  apply (init_db_keeps_existing_tables (InitFailsAt CreateCurrencyTable)
           {| weather_table :=
                Some [{| w_user_id := 1; w_username := None; w_city := "Oslo";
                         w_temperature := Some (4 # 1);
                         w_description := "rain" |}];
              currency_table := None |}).
  reflexivity.
Defined.

(** X16. [init_db] returns [True] exactly when SQLite is healthy; both
    tables then exist, a table that was absent is empty, and a second
    healthy call changes nothing. *)
Theorem init_db_creates_once :
  forall cond file,
    (fst (fst (init_db cond file)) = true <-> cond = InitHealthy) /\
    (let file' := snd (init_db InitHealthy file) in
     (exists store, tables file' = Some store) /\
     (weather_table file = None -> weather_table file' = Some []) /\
     (currency_table file = None -> currency_table file' = Some []) /\
     snd (init_db InitHealthy file') = file').
Proof.
  intros cond [w c]. split.
  - destruct cond as [ | | [ | | ]]; cbn; split; congruence.
  - cbn. destruct w, c; cbn; repeat split; try congruence; eexists; reflexivity.
Qed.

Lemma init_db_creates_once_witness :
  weather_table (snd (init_db InitHealthy fresh_file)) = Some [].
Proof.
  apply (proj2 (init_db_creates_once InitHealthy fresh_file)).
  reflexivity.
Defined.

End StorageFacts.

(** * Properties of the [/stats] handler *)

Module HandlerFacts.
Import Py Database Handlers.

Lemma strings_of_map (l : list string) : strings_of (map PStr l) = Some l.
Proof. induction l as [|x l IH]; cbn; [reflexivity | now rewrite IH]. Qed.


Lemma avg_temperature_float_or_none (ws : option (Z * option Q)) :
  avg_temperature ws = PNone \/ exists x, avg_temperature ws = PFloat x.
Proof.
  destruct ws as [[n [avg|]]|]; cbn; auto.
  destruct (Qeq_bool avg 0); cbn; eauto.
Qed.

(** The reply on a healthy store, in terms of the two fetched rows. *)
Lemma send_stats_healthy store m fragments :
  currencies_used (currency_stats (from_user_id m) store) =
    PList (map PStr fragments) ->
  send_stats Healthy store m =
    (Ok [ReplyTo m
           ([Lit stats_head;
             Shown (PInt (Z.of_nat (length (weather_of (from_user_id m) store))));
             Lit stats_middle;
             Shown (PInt (Z.of_nat (length (currency_of (from_user_id m) store))));
             Lit stats_tail]
            ++ (if py_is_not_none
                     (avg_temperature (weather_stats (from_user_id m) store))
                then [Lit average_label;
                      Shown (avg_temperature
                               (weather_stats (from_user_id m) store));
                      Lit average_unit]
                else [])
            ++ match fragments with
               | [] => []
               | _ => [Lit currencies_label;
                       Shown (PStr (String.concat ", " fragments))]
               end)
           (Some "Markdown")], []).
Proof.
  intros Hused.
  unfold send_stats.
  cbn [get_user_stats get_connection negb py_truthy py_getitem dict_lookup
       String.eqb Ascii.eqb Bool.eqb bind].
  rewrite Hused.
  change (row_count (weather_stats (from_user_id m) store))
    with (PInt (Z.of_nat (length (weather_of (from_user_id m) store)))).
  change (row_count (currency_stats (from_user_id m) store))
    with (PInt (Z.of_nat (length (currency_of (from_user_id m) store)))).
  destruct (avg_temperature_float_or_none
              (weather_stats (from_user_id m) store)) as [-> | [x ->]];
    cbn [py_is_not_none bind];
    destruct fragments as [|f fragments]; cbn [map py_truthy bind py_str_join];
    try reflexivity;
    change (PStr f :: map PStr fragments) with (map PStr (f :: fragments));
    rewrite strings_of_map; reflexivity.
Qed.



(** X18. On a healthy database the program has written, without commas
    in its codes, the reply of [send_stats] is the two counts, then the
    average line exactly when [avg_temperature] is not [None], then the
    currencies line exactly when the user has a currency row, showing the
    user's distinct codes in order of first use, separated by a comma and
    a space. *)
Theorem send_stats_reply_on_written_store :
  forall store m,
    reachable store ->
    no_comma_codes store = true ->
    exists average,
      stats_field "avg_temperature"
        (fst (get_user_stats Healthy store (from_user_id m))) = Some average /\
      send_stats Healthy store m =
        (Ok [ReplyTo m
               ([Lit stats_head;
                 Shown (PInt (Z.of_nat
                                (length (weather_of (from_user_id m) store))));
                 Lit stats_middle;
                 Shown (PInt (Z.of_nat
                                (length (currency_of (from_user_id m) store))));
                 Lit stats_tail]
                ++ (if py_is_not_none average
                    then [Lit average_label; Shown average; Lit average_unit]
                    else [])
                ++ match currency_of (from_user_id m) store with
                   | [] => []
                   | _ => [Lit currencies_label;
                           Shown (PStr (String.concat ", "
                                          (distinct
                                             (codes_of (from_user_id m) store))))]
                   end)
               (Some "Markdown")], []).
Proof.
  intros store m Hreach Hcomma.
  apply DatabaseSpec.reachable_rows_validated in Hreach.
  pose proof (DatabaseFacts.currencies_used_distinct store (from_user_id m)
                Hreach Hcomma) as Hused.
  cbn [get_user_stats get_connection negb fst stats_field dict_lookup
       String.eqb Ascii.eqb Bool.eqb] in Hused.
  injection Hused as Hused.
  exists (avg_temperature (weather_stats (from_user_id m) store)).
  split; [reflexivity|].
  rewrite (send_stats_healthy store m _ Hused).
  unfold codes_of.
  destruct (currency_of (from_user_id m) store) as [|r rows]; reflexivity.
Qed.

Lemma send_stats_reply_on_written_store_witness :
  exists average,
    stats_field "avg_temperature"
      (fst (get_user_stats Healthy
              (snd (save_currency_request Healthy
                      (snd (save_currency_request Healthy empty_db 5 None "USD"
                              (Some (91 # 1))))
                      5 None "EUR" (Some (99 # 1))))
              5)) = Some average /\
    send_stats Healthy
      (snd (save_currency_request Healthy
              (snd (save_currency_request Healthy empty_db 5 None "USD"
                      (Some (91 # 1))))
              5 None "EUR" (Some (99 # 1))))
      {| chat_id := 10; message_id := 77; text := "/stats";
         from_user_id := 5; from_username := None |}
    = (Ok [ReplyTo {| chat_id := 10; message_id := 77; text := "/stats";
                      from_user_id := 5; from_username := None |}
             ([Lit stats_head; Shown (PInt 0); Lit stats_middle;
               Shown (PInt 2); Lit stats_tail]
              ++ (if py_is_not_none average
                  then [Lit average_label; Shown average; Lit average_unit]
                  else [])
              ++ [Lit currencies_label; Shown (PStr "USD, EUR")])
             (Some "Markdown")], []).
Proof.
  apply (send_stats_reply_on_written_store
           (snd (save_currency_request Healthy
                   (snd (save_currency_request Healthy empty_db 5 None "USD"
                           (Some (91 # 1))))
                   5 None "EUR" (Some (99 # 1))))
           {| chat_id := 10; message_id := 77; text := "/stats";
              from_user_id := 5; from_username := None |}).
  - apply reach_currency. apply reach_currency. apply reach_init.
  - reflexivity.
Defined.

End HandlerFacts.
